(** * PlayReviews: the review synchroniser of [script/ExtractReviews.py]

    A shallow embedding of the Python script: exceptions are an error
    monad, Python dicts are insertion-ordered association lists with
    unique keys, the HTTP client and the clock are an explicit environment,
    the files under [../raw-data/reviews/] are an explicit store, and the
    [while True] pagination loop runs on fuel. *)

From Stdlib Require Import String Ascii List ZArith Lia Bool Arith.
From Stdlib Require Import Permutation Sorted Eqdep_dec OrderedTypeEx.
Import ListNotations.
Open Scope string_scope.
Open Scope list_scope.
Open Scope Z_scope.

Set Implicit Arguments.

(** ** Exceptions and results *)

Inductive exn : Type :=
| TypeError
| ValueError
| KeyError
| OverflowError
| ConnectionError
| JSONDecodeError.

Inductive result (A : Type) : Type :=
| Ok (a : A)
| Raise (e : exn).

Arguments Ok {A} a.
Arguments Raise {A} e.

Definition bind {A B : Type} (m : result A) (k : A -> result B) : result B :=
  match m with
  | Ok a => k a
  | Raise e => Raise e
  end.

Declare Scope py_scope.
Delimit Scope py_scope with py.
Notation "x <- m ;; k" := (bind m (fun x => k))
  (at level 61, m at next level, right associativity) : py_scope.
Open Scope py_scope.

(** [[f(x) for x in l]] with an [f] that may raise: the first failure, in
    list order, is the one that escapes. *)
Fixpoint map_result {A B : Type} (f : A -> result B) (l : list A)
  : result (list B) :=
  match l with
  | [] => Ok []
  | x :: t => y <- f x ;; ys <- map_result f t ;; Ok (y :: ys)
  end.

(** ** Python values

    The scalars that occur as JSON fields of a review: [null], integers
    and strings.  Strings are byte strings holding UTF-8; byte-wise
    lexicographic order on UTF-8 is code-point order, which is how Python
    compares [str]. *)

Inductive value : Type :=
| VNone
| VInt (n : Z)
| VStr (s : string).

Definition value_eq_dec (x y : value) : {x = y} + {x <> y}.
Proof.
  decide equality; [apply Z.eq_dec | apply string_dec].
Defined.

(** [a + b]: defined on two integers and on two strings only. *)
Definition py_add (a b : value) : result value :=
  match a, b with
  | VInt m, VInt n => Ok (VInt (m + n))
  | VStr s, VStr t => Ok (VStr (s ++ t)%string)
  | _, _ => Raise TypeError
  end.

Definition str_ltb (s t : string) : bool :=
  match String.compare s t with
  | Lt => true
  | _ => false
  end.

(** [a < b]: numeric on integers, lexicographic on strings, [TypeError]
    on anything else. *)
Definition py_lt (a b : value) : result bool :=
  match a, b with
  | VInt m, VInt n => Ok (m <? n)
  | VStr s, VStr t => Ok (str_ltb s t)
  | _, _ => Raise TypeError
  end.

(** ** Dicts

    A Python dict keeps its keys in insertion order and holds each key
    once.  [d[k] = v] updates in place when [k] is present and appends
    otherwise. *)

Section Items.
Variable V : Type.

Definition has_key (k : string) (l : list (string * V)) : bool :=
  existsb (fun kv => String.eqb k (fst kv)) l.

Fixpoint keys_unique (l : list (string * V)) : bool :=
  match l with
  | [] => true
  | kv :: t => negb (has_key (fst kv) t) && keys_unique t
  end.

Fixpoint set_item (k : string) (v : V) (l : list (string * V))
  : list (string * V) :=
  match l with
  | [] => [(k, v)]
  | kv :: t =>
      if String.eqb k (fst kv) then (k, v) :: t
      else kv :: set_item k v t
  end.

Fixpoint get_item (k : string) (l : list (string * V)) : option V :=
  match l with
  | [] => None
  | kv :: t => if String.eqb k (fst kv) then Some (snd kv) else get_item k t
  end.

Lemma has_key_set_item k k' v l :
  has_key k' (set_item k v l) = String.eqb k' k || has_key k' l.
Proof.
  induction l as [|[k0 v0] t IH]; simpl.
  - now rewrite orb_false_r.
  - destruct (String.eqb_spec k k0) as [->|Hne]; simpl.
    + now destruct (String.eqb k' k0).
    + rewrite IH. destruct (String.eqb k' k), (String.eqb k' k0); reflexivity.
Qed.

Lemma keys_unique_set_item k v l :
  keys_unique l = true -> keys_unique (set_item k v l) = true.
Proof.
  induction l as [|[k0 v0] t IH]; simpl; intros H; [reflexivity|].
  apply andb_true_iff in H as [H1 H2].
  destruct (String.eqb_spec k k0) as [->|Hne]; simpl.
  - now rewrite H1, H2.
  - rewrite has_key_set_item, (IH H2).
    destruct (String.eqb_spec k0 k) as [->|_]; [congruence|].
    simpl. now rewrite H1.
Qed.

Lemma get_set_same k v l : get_item k (set_item k v l) = Some v.
Proof.
  induction l as [|[k0 v0] t IH]; simpl.
  - now rewrite String.eqb_refl.
  - destruct (String.eqb_spec k k0) as [->|Hne]; simpl.
    + now rewrite String.eqb_refl.
    + destruct (String.eqb_spec k k0); [contradiction|assumption].
Qed.

Lemma get_set_other k k' v l :
  k' <> k -> get_item k' (set_item k v l) = get_item k' l.
Proof.
  intros Hne. induction l as [|[k0 v0] t IH]; simpl.
  - destruct (String.eqb_spec k' k); [contradiction|reflexivity].
  - destruct (String.eqb_spec k k0) as [->|Hne0]; simpl.
    + destruct (String.eqb_spec k' k0); [contradiction|reflexivity].
    + now rewrite IH.
Qed.

Lemma has_key_get k l : has_key k l = true <-> exists v, get_item k l = Some v.
Proof.
  induction l as [|[k0 v0] t IH]; simpl.
  - split; [discriminate | intros [v H]; discriminate].
  - destruct (String.eqb k k0); simpl; [|exact IH].
    split; [intros _; now exists v0 | reflexivity].
Qed.

Lemma has_key_get_none k l : has_key k l = false <-> get_item k l = None.
Proof.
  induction l as [|[k0 v0] t IH]; simpl.
  - tauto.
  - destruct (String.eqb k k0); simpl; [|exact IH].
    split; discriminate.
Qed.

(** A well-formed item list is left alone by re-inserting its own
    items after any prefix that does not mention them. *)
Lemma set_item_fresh k v l :
  has_key k l = false -> set_item k v l = l ++ [(k, v)].
Proof.
  induction l as [|[k0 v0] t IH]; simpl; intros H; [reflexivity|].
  apply orb_false_iff in H as [H1 H2].
  rewrite H1. now rewrite IH.
Qed.

Lemma has_key_app k l1 l2 :
  has_key k (l1 ++ l2) = has_key k l1 || has_key k l2.
Proof. unfold has_key. apply existsb_app. Qed.

Record pydict : Type := PyDict {
  items : list (string * V);
  items_unique : keys_unique items = true
}.

Lemma pydict_ext (d1 d2 : pydict) : items d1 = items d2 -> d1 = d2.
Proof.
  destruct d1 as [l1 H1], d2 as [l2 H2]; simpl; intros E; subst l2.
  f_equal. apply UIP_dec, bool_dec.
Qed.

Definition empty_dict : pydict := @PyDict [] eq_refl.

Definition dict_set (k : string) (v : V) (d : pydict) : pydict :=
  @PyDict (set_item k v (items d)) (keys_unique_set_item k v _ (items_unique d)).

Definition dict_get (k : string) (d : pydict) : option V :=
  get_item k (items d).

Definition dict_keys (d : pydict) : list string := map fst (items d).

(** [dict(t)] for a sequence of pairs, and [{**d, **e}]: the pairs are
    stored one after the other. *)
Definition dict_update (d : pydict) (t : list (string * V)) : pydict :=
  fold_left (fun acc kv => dict_set (fst kv) (snd kv) acc) t d.

Definition dict_of_pairs (t : list (string * V)) : pydict :=
  dict_update empty_dict t.

Lemma items_dict_update_fresh t : forall d,
  keys_unique t = true ->
  (forall k, has_key k t = true -> has_key k (items d) = false) ->
  items (dict_update d t) = items d ++ t.
Proof.
  unfold dict_update.
  induction t as [|[k v] t IH]; simpl; intros d Hu Hf.
  - now rewrite app_nil_r.
  - apply andb_true_iff in Hu as [Hk Hu].
    apply negb_true_iff in Hk.
    rewrite IH; simpl; trivial.
    + rewrite set_item_fresh, <- app_assoc; [reflexivity|].
      apply Hf. now rewrite String.eqb_refl.
    + intros k' Hk'. rewrite has_key_set_item.
      destruct (String.eqb_spec k' k) as [->|_]; [congruence|].
      apply Hf. rewrite Hk'. apply orb_true_r.
Qed.

Lemma dict_of_pairs_items (d : pydict) : dict_of_pairs (items d) = d.
Proof.
  apply pydict_ext. unfold dict_of_pairs.
  rewrite items_dict_update_fresh; trivial.
  apply items_unique.
Qed.
End Items.

Arguments empty_dict {V}.
Arguments PyDict {V} items items_unique.

(** ** Dates

    [datetime.date] values, compared as Python compares them: by
    (year, month, day). *)

Record date : Type := mkdate { year : Z; month : Z; day : Z }.

Definition date_ltb (a b : date) : bool :=
  (year a <? year b)
  || ((year a =? year b)
      && ((month a <? month b)
          || ((month a =? month b) && (day a <? day b)))).

Definition date_eqb (a b : date) : bool :=
  (year a =? year b) && (month a =? month b) && (day a =? day b).

Definition is_leap (y : Z) : bool :=
  (y mod 4 =? 0) && (negb (y mod 100 =? 0) || (y mod 400 =? 0)).

Definition days_in_month (y m : Z) : Z :=
  if m =? 2 then (if is_leap y then 29 else 28)
  else if (m =? 4) || (m =? 6) || (m =? 9) || (m =? 11) then 30
  else 31.

(** What the [date] constructor accepts: years 1..9999 and a day that
    exists in its month. *)
Definition valid_date (d : date) : bool :=
  (1 <=? year d) && (year d <=? 9999)
  && (1 <=? month d) && (month d <=? 12)
  && (1 <=? day d) && (day d <=? days_in_month (year d) (month d)).

Definition prev_day (d : date) : date :=
  if 1 <? day d then mkdate (year d) (month d) (day d - 1)
  else if 1 <? month d
       then mkdate (year d) (month d - 1) (days_in_month (year d) (month d - 1))
       else mkdate (year d - 1) 12 31.

Definition next_day (d : date) : date :=
  if day d <? days_in_month (year d) (month d)
  then mkdate (year d) (month d) (day d + 1)
  else if month d <? 12 then mkdate (year d) (month d + 1) 1
       else mkdate (year d + 1) 1 1.

(** [d - timedelta(days=n)]; leaving the range of [date] is an
    [OverflowError]. *)
Fixpoint minus_days (n : nat) (d : date) : result date :=
  match n with
  | O => Ok d
  | S n' =>
      let p := prev_day d in
      if valid_date p then minus_days n' p else Raise OverflowError
  end.

(** *** [datetime.strptime(s, "%Y-%m-%d")]

    The format compiles to the regular expression
    [(\d\d\d\d)-(1[0-2]|0[1-9]|[1-9])-(3[01]|[12]\d|0[1-9]|[1-9]| [1-9])],
    the whole string has to be consumed, and the three numbers have to
    form a date.  Every failure is a [ValueError].  Digits are the ASCII
    digits. *)

Definition digit (c : ascii) : option Z :=
  let n := Z.of_N (N_of_ascii c) in
  if (48 <=? n) && (n <=? 57) then Some (n - 48) else None.

Definition dash : ascii := "-"%char.
Definition space : ascii := " "%char.

Definition parse_year (cs : list ascii) : option (Z * list ascii) :=
  match cs with
  | a :: b :: c :: d :: rest =>
      match digit a, digit b, digit c, digit d with
      | Some a, Some b, Some c, Some d =>
          Some (1000 * a + 100 * b + 10 * c + d, rest)
      | _, _, _, _ => None
      end
  | _ => None
  end.

Definition parse_month (cs : list ascii) : option (Z * list ascii) :=
  match cs with
  | a :: b :: rest =>
      if Ascii.eqb b dash then
        match digit a with
        | Some m => if 1 <=? m then Some (m, b :: rest) else None
        | None => None
        end
      else
        match digit a, digit b with
        | Some 1, Some n => if n <=? 2 then Some (10 + n, rest) else None
        | Some 0, Some n => if 1 <=? n then Some (n, rest) else None
        | _, _ => None
        end
  | _ => None
  end.

Definition parse_day (cs : list ascii) : option Z :=
  match cs with
  | [a] =>
      match digit a with
      | Some d => if 1 <=? d then Some d else None
      | None => None
      end
  | [a; b] =>
      if Ascii.eqb a space then
        match digit b with
        | Some d => if 1 <=? d then Some d else None
        | None => None
        end
      else
        match digit a, digit b with
        | Some 3, Some n => if n <=? 1 then Some (30 + n) else None
        | Some 2, Some n => Some (20 + n)
        | Some 1, Some n => Some (10 + n)
        | Some 0, Some n => if 1 <=? n then Some n else None
        | _, _ => None
        end
  | _ => None
  end.

Definition expect_dash (cs : list ascii) : option (list ascii) :=
  match cs with
  | c :: rest => if Ascii.eqb c dash then Some rest else None
  | [] => None
  end.

Definition strptime_ymd (s : string) : result date :=
  match parse_year (list_ascii_of_string s) with
  | None => Raise ValueError
  | Some (y, r1) =>
      match expect_dash r1 with
      | None => Raise ValueError
      | Some r2 =>
          match parse_month r2 with
          | None => Raise ValueError
          | Some (m, r3) =>
              match expect_dash r3 with
              | None => Raise ValueError
              | Some r4 =>
                  match parse_day r4 with
                  | None => Raise ValueError
                  | Some d =>
                      let dt := mkdate y m d in
                      if valid_date dt then Ok dt else Raise ValueError
                  end
              end
          end
      end
  end.

(** [datetime.strptime(v, "%Y-%m-%d")] on a Python value: anything but a
    [str] is a [TypeError]. *)
Definition strptime (v : value) : result date :=
  match v with
  | VStr s => strptime_ymd s
  | _ => Raise TypeError
  end.

(** ** The remote service

    [requests.get] either raises (a transport failure is a
    [requests.exceptions.ConnectionError]) or hands back a response with
    a status code and a body; [response.json()] decodes the body, and
    raises when it is not JSON. *)

Record response (B : Type) : Type := mkresponse {
  status_code : Z;
  json : result B
}.

Arguments mkresponse {B} status_code json.

Record criterion : Type := mkcriterion {
  criteria : string;
  rating : option value          (* [None]: the entry has no "rating" key *)
}.

Record RawReview : Type := mkraw {
  rv_id : value;
  rv_date : value;
  rv_score : value;
  rv_scoreText : value;
  rv_title : value;
  rv_text : value;
  rv_criterias : option (list criterion)   (* [None]: no "criterias" key *)
}.

(** The decoded body of the reviews endpoint.  [JEmpty] stands for the
    falsy bodies ([null], [{}]); [JPage] for an object, with the defaults
    of [.get("results", {})], [.get("data", [])] and
    [.get("nextPaginationToken")] already applied to missing keys. *)
Inductive reviews_json : Type :=
| JEmpty
| JPage (data : list RawReview) (nextPaginationToken : option string).

Record network : Type := mknetwork {
  requests_get_reviews :
    string -> list (string * string) -> result (response reviews_json);
  requests_get : string -> result (response string)
}.

Definition GPLAY_BASE_URL : string := "https://gplayapi.cashlessconsumer.in".

(** Truth value of a [str]-or-[None]. *)
Definition truthy (t : option string) : bool :=
  match t with
  | Some s => negb (String.eqb s "")
  | None => false
  end.

(** [response.json() if response.status_code == 200 else None] *)
Definition json_if_200 {B : Type} (r : response B) : result (option B) :=
  if status_code r =? 200 then (j <- json r ;; Ok (Some j)) else Ok None.

Definition reviews_url (app_id : string) : string :=
  (GPLAY_BASE_URL ++ "/api/apps/" ++ app_id ++ "/reviews?num=100")%string.

Definition reviews_params (next_pagination_token : option string)
  : list (string * string) :=
  match next_pagination_token with
  | Some t => if truthy (Some t) then [("nextPaginationToken", t)] else []
  | None => []
  end.

Definition appinfo_url (app_id : string) : string :=
  (GPLAY_BASE_URL ++ "/api/apps/" ++ app_id)%string.

Definition permissions_url (app_id : string) : string :=
  (GPLAY_BASE_URL ++ "/api/apps/" ++ app_id ++ "/permissions")%string.

Definition datasafety_url (app_id : string) : string :=
  (GPLAY_BASE_URL ++ "/api/apps/" ++ app_id ++ "/datasafety")%string.

Definition get_reviews (net : network) (app_id : string)
    (next_pagination_token : option string) : result (option reviews_json) :=
  response <- requests_get_reviews net (reviews_url app_id)
                (reviews_params next_pagination_token) ;;
  json_if_200 response.

Definition get_appinfo (net : network) (app_id : string) : result (option string) :=
  response <- requests_get net (appinfo_url app_id) ;;
  json_if_200 response.

Definition get_permissions (net : network) (app_id : string) : result (option string) :=
  response <- requests_get net (permissions_url app_id) ;;
  json_if_200 response.

Definition get_datasafety (net : network) (app_id : string) : result (option string) :=
  response <- requests_get net (datasafety_url app_id) ;;
  json_if_200 response.

(** ** Flattening *)

Definition rating_value (c : criterion) : value :=
  match rating c with
  | Some v => v
  | None => VNone
  end.

Definition criterias_of (review : RawReview) : list criterion :=
  match rv_criterias review with
  | Some cs => cs
  | None => []
  end.

Definition flatten_criterias (review : RawReview) : pydict value :=
  fold_left (fun flattened c => dict_set (criteria c) (rating_value c) flattened)
            (criterias_of review) empty_dict.

(** The dict display of lines 62-70: six fixed keys, then the unpacked
    [flatten_criterias(review)]. *)
Definition fixed_fields (review : RawReview) : list (string * value) :=
  [("id", rv_id review); ("date", rv_date review);
   ("score", rv_score review); ("scoreText", rv_scoreText review);
   ("title", rv_title review); ("text", rv_text review)].

Definition flatten_review (review : RawReview) : pydict value :=
  dict_update (dict_of_pairs (fixed_fields review))
              (items (flatten_criterias review)).

(** ** Deduplication through a set of item tuples

    [tuple(d.items())] is the item sequence of [d], in key order.  A
    Python set holds each of them once and iterates in an order of its
    own; all that is known of it is that it enumerates the distinct
    elements. *)

Definition item_tuple : Type := list (string * value).

Definition item_eq_dec (x y : string * value) : {x = y} + {x <> y}.
Proof.
  decide equality; [apply value_eq_dec | apply string_dec].
Defined.

Definition item_tuple_eq_dec (x y : item_tuple) : {x = y} + {x <> y} :=
  list_eq_dec item_eq_dec x y.

Class SetOrder : Type := {
  set_iter : list item_tuple -> list item_tuple;
  set_iter_perm : forall l, Permutation (set_iter l) (nodup item_tuple_eq_dec l)
}.

#[refine] Instance nodup_order : SetOrder :=
  {| set_iter := nodup item_tuple_eq_dec |}.
Proof. intros l. apply Permutation_refl. Defined.

Definition remove_duplicates {O : SetOrder} (reviews : list (pydict value))
  : list (pydict value) :=
  map (@dict_of_pairs value) (set_iter (map (@items value) reviews)).

(** ** Paginated fetch *)

(** The comprehension of line 51. *)
Fixpoint cutoff_filter (upto_date : date) (reviews : list RawReview)
  : result (list RawReview) :=
  match reviews with
  | [] => Ok []
  | r :: t =>
      d <- strptime (rv_date r) ;;
      rest <- cutoff_filter upto_date t ;;
      Ok (if date_ltb upto_date d then r :: rest else rest)
  end.

(** The [while True] loop of lines 42-58; [None] is a loop that has not
    ended within [fuel] requests. *)
Fixpoint fetch_pages (fuel : nat) (net : network) (app_id : string)
    (upto_date : option date) (next_pagination_token : option string)
    (all_reviews : list RawReview) : option (result (list RawReview)) :=
  match fuel with
  | O => None
  | S fuel' =>
      match get_reviews net app_id next_pagination_token with
      | Raise e => Some (Raise e)
      | Ok None | Ok (Some JEmpty) => Some (Ok all_reviews)
      | Ok (Some (JPage reviews token)) =>
          let selected :=
            match upto_date with
            | Some d => cutoff_filter d reviews
            | None => Ok reviews
            end in
          match selected with
          | Raise e => Some (Raise e)
          | Ok reviews' =>
              match upto_date, reviews' with
              | Some _, [] => Some (Ok all_reviews)
              | _, _ =>
                  if truthy token
                  then fetch_pages fuel' net app_id upto_date token
                                   (all_reviews ++ reviews')
                  else Some (Ok (all_reviews ++ reviews'))
              end
          end
      end
  end.

Definition extract_all_reviews {O : SetOrder} (fuel : nat) (net : network)
    (app_id : string) (upto_date : option date)
  : option (result (list (pydict value))) :=
  match fetch_pages fuel net app_id upto_date None [] with
  | None => None
  | Some (Raise e) => Some (Raise e)
  | Some (Ok all_reviews) =>
      Some (Ok (remove_duplicates (map flatten_review all_reviews)))
  end.

(** ** Sorting: [sorted(l, key=..., reverse=True)]

    The keys are computed first, one per element and in list order; the
    sort is stable, also with [reverse=True].  It is written here as a
    stable insertion sort on [<]; on keys that [<] compares without
    raising, every stable sort returns this list. *)

Definition subscript (x : pydict value) (k : string) : result value :=
  match dict_get k x with
  | Some v => Ok v
  | None => Raise KeyError
  end.

Definition sort_key (x : pydict value) : result (date * value) :=
  dv <- subscript x "date" ;;
  d <- strptime dv ;;
  i <- subscript x "id" ;;
  Ok (d, i).

(** [a < b] on the key tuples: the first components that differ decide. *)
Definition key_lt (a b : date * value) : result bool :=
  if date_eqb (fst a) (fst b) then
    if value_eq_dec (snd a) (snd b) then Ok false
    else py_lt (snd a) (snd b)
  else Ok (date_ltb (fst a) (fst b)).

Section Sorting.
Variable A : Type.

Fixpoint insert_desc (x : (date * value) * A) (l : list ((date * value) * A))
  : result (list ((date * value) * A)) :=
  match l with
  | [] => Ok [x]
  | y :: t =>
      b <- key_lt (fst x) (fst y) ;;
      if b then (r <- insert_desc x t ;; Ok (y :: r))
      else Ok (x :: y :: t)
  end.

Fixpoint sort_desc (l : list ((date * value) * A))
  : result (list ((date * value) * A)) :=
  match l with
  | [] => Ok []
  | x :: t => s <- sort_desc t ;; insert_desc x s
  end.
End Sorting.

Definition with_key (x : pydict value) : result ((date * value) * pydict value) :=
  k <- sort_key x ;; Ok (k, x).

Definition sorted_reviews (l : list (pydict value)) : result (list (pydict value)) :=
  keyed <- map_result with_key l ;;
  s <- sort_desc keyed ;;
  Ok (map snd s).

(** ** The files and the environment

    The three kinds of file have distinct name prefixes, so each kind is
    a store of its own, from file name to decoded content. *)

Record storage : Type := mkstorage {
  reviews_files : string -> option (list (pydict value));
  criterias_files : string -> option (pydict Z);
  payload_files : string -> option (option string)
}.

Definition write {C : Type} (name : string) (content : C)
    (files : string -> option C) : string -> option C :=
  fun n => if String.eqb n name then Some content else files n.

Definition write_reviews (name : string) (l : list (pydict value))
    (st : storage) : storage :=
  mkstorage (write name l (reviews_files st)) (criterias_files st) (payload_files st).

Definition write_criterias (name : string) (c : pydict Z) (st : storage) : storage :=
  mkstorage (reviews_files st) (write name c (criterias_files st)) (payload_files st).

Definition write_payload (name : string) (p : option string) (st : storage) : storage :=
  mkstorage (reviews_files st) (criterias_files st) (write name p (payload_files st)).

Record environment : Type := mkenv {
  net : network;
  today : date
}.

Definition reviews_filename (app_id : string) : string :=
  ("../raw-data/reviews/" ++ "Reviews_" ++ app_id ++ ".json")%string.

Definition criterias_filename (app_id : string) : string :=
  ("../raw-data/reviews/" ++ "Criterias_" ++ app_id ++ ".json")%string.

(** [json.load] of the archive when the file exists, [[]] otherwise. *)
Definition load_reviews (st : storage) (filename : string) : list (pydict value) :=
  match reviews_files st filename with
  | Some l => l
  | None => []
  end.

(** ** [save_app_reviews] *)

(** Line 96: the argument of [logging.debug]. *)
Definition count_message (reviews : list (pydict value)) : result value :=
  py_add (VStr "Count of all reviews ") (VInt (Z.of_nat (length reviews))).

(** Lines 97-100: deduplicate, sort, dump. *)
Definition merge_and_persist {O : SetOrder} (review_filename : string)
    (existing_reviews reviews : list (pydict value)) (st : storage)
  : result unit * storage :=
  let all_reviews := remove_duplicates (existing_reviews ++ reviews) in
  match sorted_reviews all_reviews with
  | Raise e => (Raise e, st)
  | Ok all_reviews' => (Ok tt, write_reviews review_filename all_reviews' st)
  end.

(** Line 95: a bounded fetch when an archive exists, a full one otherwise. *)
Definition fetch_for_sync {O : SetOrder} (fuel : nat) (env : environment)
    (app_id : string) (existing_reviews : list (pydict value)) (upto_date : date)
  : option (result (list (pydict value))) :=
  if (0 <? length existing_reviews)%nat
  then extract_all_reviews fuel (net env) app_id (Some upto_date)
  else extract_all_reviews fuel (net env) app_id None.

Definition save_app_reviews {O : SetOrder} (fuel : nat) (env : environment)
    (app_id : string) (st : storage) : option (result unit * storage) :=
  let review_filename := reviews_filename app_id in
  let existing_reviews := load_reviews st review_filename in
  match minus_days 2 (today env) with
  | Raise e => Some (Raise e, st)
  | Ok upto_date =>
      match fetch_for_sync fuel env app_id existing_reviews upto_date with
      | None => None
      | Some (Raise e) => Some (Raise e, st)
      | Some (Ok reviews) =>
          match count_message reviews with
          | Raise e => Some (Raise e, st)
          | Ok _ =>
              Some (merge_and_persist review_filename existing_reviews reviews st)
          end
      end
  end.

(** ** [save_app_review_criterias] *)

Definition get_default (key : string) (counts : pydict Z) : Z :=
  match dict_get key counts with
  | Some n => n
  | None => 0
  end.

Definition count_key (criteria_counts : pydict Z) (key : string) : pydict Z :=
  if String.prefix "vaf" key
  then dict_set key (get_default key criteria_counts + 1) criteria_counts
  else criteria_counts.

Definition count_review (criteria_counts : pydict Z) (single_review : pydict value)
  : pydict Z :=
  fold_left count_key (dict_keys single_review) criteria_counts.

Definition count_criterias (existing_reviews : list (pydict value)) : pydict Z :=
  fold_left count_review existing_reviews empty_dict.

Definition save_app_review_criterias (app_id : string) (st : storage) : storage :=
  let review_filename := reviews_filename app_id in
  let criterias_filename := criterias_filename app_id in
  let existing_reviews := load_reviews st review_filename in
  write_criterias criterias_filename (count_criterias existing_reviews) st.

(** ** The three overwrite-only operations *)

Definition payload_filename (kind app_id : string) : string :=
  ("../raw-data/reviews/" ++ kind ++ "_" ++ app_id ++ ".json")%string.

Definition save_payload (kind : string) (fetched : result (option string))
    (app_id : string) (st : storage) : result unit * storage :=
  match fetched with
  | Raise e => (Raise e, st)
  | Ok data => (Ok tt, write_payload (payload_filename kind app_id) data st)
  end.

Definition save_app_permissions (env : environment) (app_id : string)
    (st : storage) : result unit * storage :=
  save_payload "Permissions" (get_permissions (net env) app_id) app_id st.

Definition save_app_info (env : environment) (app_id : string)
    (st : storage) : result unit * storage :=
  save_payload "AppInfo" (get_appinfo (net env) app_id) app_id st.

Definition save_app_datasafety (env : environment) (app_id : string)
    (st : storage) : result unit * storage :=
  save_payload "DataSafety" (get_datasafety (net env) app_id) app_id st.

(** ** The batch: lines 193-206

    [app_ids] is the decoded content of [../raw-data/applist.json].  An
    exception that leaves one of the five operations leaves the loop and
    the program. *)

Definition process_app {O : SetOrder} (fuel : nat) (env : environment)
    (app_id : string) (st : storage) : option (result unit * storage) :=
  match save_app_info env app_id st with
  | (Raise e, st1) => Some (Raise e, st1)
  | (Ok _, st1) =>
      match save_app_reviews fuel env app_id st1 with
      | None => None
      | Some (Raise e, st2) => Some (Raise e, st2)
      | Some (Ok _, st2) =>
          let st3 := save_app_review_criterias app_id st2 in
          match save_app_permissions env app_id st3 with
          | (Raise e, st4) => Some (Raise e, st4)
          | (Ok _, st4) => Some (save_app_datasafety env app_id st4)
          end
      end
  end.

Fixpoint main {O : SetOrder} (fuel : nat) (env : environment)
    (app_ids : list string) (st : storage) : option (result unit * storage) :=
  match app_ids with
  | [] => Some (Ok tt, st)
  | app_id :: rest =>
      match process_app fuel env app_id st with
      | None => None
      | Some (Raise e, st') => Some (Raise e, st')
      | Some (Ok _, st') => main fuel env rest st'
      end
  end.

(** * Vocabulary of the properties, and sample data *)

(** A network on which every request fails in transport. *)
Definition offline : network :=
  mknetwork (fun _ _ => Raise ConnectionError) (fun _ => Raise ConnectionError).

(** A response with the given status and a body that is not JSON. *)
Definition error_page {B : Type} (status : Z) : result (response B) :=
  Ok (mkresponse status (Raise JSONDecodeError)).

(** A network that answers every request with status 503. *)
Definition unavailable : network :=
  mknetwork (fun _ _ => error_page 503) (fun _ => error_page 503).

Definition sample_review (i d : string) (cs : list criterion) : RawReview :=
  mkraw (VStr i) (VStr d) (VInt 5) (VStr "5") (VStr "Great") (VStr "Works well")
        (Some cs).

(** A service whose reviews endpoint has one page, the last one. *)
Definition single_page (rs : list RawReview) : network :=
  mknetwork (fun _ _ => Ok (mkresponse 200 (Ok (JPage rs None))))
            (fun _ => Ok (mkresponse 200 (Ok "{}"))).

Definition no_files : storage :=
  mkstorage (fun _ => None) (fun _ => None) (fun _ => None).

(** Two runs of the synchroniser, the second on the files the first
    one left, however the first one ended. *)
Definition sync_twice {O : SetOrder} (fuel : nat) (env : environment)
    (app_id : string) (st : storage) : option (result unit * storage) :=
  match save_app_reviews fuel env app_id st with
  | Some (_, st1) => save_app_reviews fuel env app_id st1
  | None => None
  end.

Definition first_run_env : environment :=
  mkenv (single_page [sample_review "r1" "2024-01-02" []]) (mkdate 2024 1 3).

(** Order-independent equality of two records: the same value, or the
    same absence, under every key. *)
Definition same_mapping (d1 d2 : pydict value) : Prop :=
  forall k, dict_get k d1 = dict_get k d2.

(** Two flattened reviews of the same remote review whose criteria arrive
    in a different order. *)
Definition review_ab : pydict value :=
  flatten_review
    (sample_review "r1" "2024-01-02"
       [mkcriterion "vaf_a" (Some (VInt 1)); mkcriterion "vaf_b" (Some (VInt 2))]).

Definition review_ba : pydict value :=
  flatten_review
    (sample_review "r1" "2024-01-02"
       [mkcriterion "vaf_b" (Some (VInt 2)); mkcriterion "vaf_a" (Some (VInt 1))]).

Definition criterion_item (c : criterion) : string * value :=
  (criteria c, rating_value c).

(** Adding [n] sightings to the count a key may already have. *)
Definition bump (n : Z) (o : option Z) : option Z :=
  if n =? 0 then o
  else Some (match o with Some m => m | None => 0 end + n).

Definition occurrences (k : string) (ks : list string) : Z :=
  Z.of_nat (count_occ string_dec ks k).

Definition vaf_only (k : string) (n : Z) : Z :=
  if String.prefix "vaf" k then n else 0.

Definition contains (k : string) (review : pydict value) : bool :=
  has_key k (items review).

(** The number of reviews that have the key [k]. *)
Definition reviews_with (k : string) (reviews : list (pydict value)) : Z :=
  Z.of_nat (length (filter (contains k) reviews)).

(** The archive of three records of the specification's example. *)
Definition three_records : list (pydict value) :=
  map (@dict_of_pairs value)
    [[("id", VStr "r3"); ("date", VStr "2024-01-03"); ("vaf_clarity", VInt 4)];
     [("id", VStr "r2"); ("date", VStr "2024-01-02"); ("vaf_clarity", VInt 2);
      ("vaf_speed", VInt 5)];
     [("id", VStr "r1"); ("date", VStr "2024-01-01")]].

Definition three_records_stored : storage :=
  write_reviews (reviews_filename "com.example.app") three_records no_files.

Definition date_lt (a b : date) : Prop :=
  year a < year b
  \/ (year a = year b
      /\ (month a < month b \/ (month a = month b /\ day a < day b))).

Definition parses (r : RawReview) : Prop :=
  exists d, strptime (rv_date r) = Ok d.

Definition after_cutoff (upto_date : date) (r : RawReview) : bool :=
  match strptime (rv_date r) with
  | Ok d => date_ltb upto_date d
  | Raise _ => false
  end.

(** A page as the service returns it: its reviews and its continuation
    token. *)
Definition page : Type := (list RawReview * option string)%type.

(** The service answers the request made with [tok] with the first page,
    the request made with that page's token with the second, and so on. *)
Fixpoint serves (net : network) (app_id : string) (tok : option string)
    (pages : list page) : Prop :=
  match pages with
  | [] => True
  | p :: rest =>
      get_reviews net app_id tok = Ok (Some (JPage (fst p) (snd p)))
      /\ serves net app_id (snd p) rest
  end.

Definition last_token (tok : option string) (pages : list page) : option string :=
  fold_left (fun _ p => snd p) pages tok.

(** What a page adds to the accumulator. *)
Definition kept (upto_date : option date) (p : page) : list RawReview :=
  match upto_date with
  | Some d => filter (after_cutoff d) (fst p)
  | None => fst p
  end.

(** A page after which the loop requests the next one. *)
Definition continues (upto_date : option date) (p : page) : Prop :=
  truthy (snd p) = true
  /\ match upto_date with
     | Some d => Forall parses (fst p) /\ kept upto_date p <> []
     | None => True
     end.

(** A service with three pages, linked by the tokens [tokenA] and
    [tokenB]; any other token is answered with status 404. *)
Definition page_one : page := ([sample_review "r5" "2024-03-05" []], Some "tokenA").
Definition page_two : page := ([sample_review "r4" "2024-03-03" []], Some "tokenB").
Definition page_three : page := ([sample_review "r1" "2024-02-20" []], None).

Definition respond (p : page) : result (response reviews_json) :=
  Ok (mkresponse 200 (Ok (JPage (fst p) (snd p)))).

Definition three_pages : network :=
  mknetwork
    (fun _ params =>
       match params with
       | [] => respond page_one
       | [(_, t)] =>
           if String.eqb t "tokenA" then respond page_two
           else if String.eqb t "tokenB" then respond page_three
                else error_page 404
       | _ => error_page 404
       end)
    (fun _ => error_page 404).

(** The same service when it breaks down after its first page. *)
Definition first_page_only : network :=
  mknetwork
    (fun _ params =>
       match params with
       | [] => respond page_one
       | _ => error_page 500
       end)
    (fun _ => error_page 500).

(** [x >= y] on ids, as [<] decides it. *)
Definition id_ge (x y : value) : Prop :=
  x = y \/ py_lt y x = Ok true.

(** [a >= b] on sort keys: a later date, or the same date and an id that
    is not smaller. *)
Definition key_ge (a b : date * value) : Prop :=
  date_ltb (fst b) (fst a) = true
  \/ (fst a = fst b /\ id_ge (snd a) (snd b)).

Definition keyed_ge {A : Type} (x y : (date * value) * A) : Prop :=
  key_ge (fst x) (fst y).

(** With string ids no comparison raises, and the sort returns. *)
Definition str_key {A : Type} (x : (date * value) * A) : Prop :=
  exists s, snd (fst x) = VStr s.

(** [a] may stand immediately before [b] in the archive. *)
Definition desc (a b : pydict value) : Prop :=
  exists ka kb, sort_key a = Ok ka /\ sort_key b = Ok kb /\ key_ge ka kb.

Definition has_str_id (x : pydict value) : Prop :=
  exists d s, sort_key x = Ok (d, VStr s).

(** [a] sorts strictly before [b]: string ids, and a greater key. *)
Definition str_gt (a b : pydict value) : Prop :=
  exists da db sa sb,
    sort_key a = Ok (da, VStr sa) /\ sort_key b = Ok (db, VStr sb)
    /\ (date_lt db da \/ (da = db /\ String.compare sb sa = Lt)).

Definition is_digit (c : ascii) : bool :=
  match digit c with
  | Some _ => true
  | None => false
  end.

(** The strings of the form [dddd-dd-dd]. *)
Definition iso_form (s : string) : bool :=
  match list_ascii_of_string s with
  | [y1; y2; y3; y4; h1; m1; m2; h2; d1; d2] =>
      is_digit y1 && is_digit y2 && is_digit y3 && is_digit y4
      && Ascii.eqb h1 dash
      && is_digit m1 && is_digit m2
      && Ascii.eqb h2 dash
      && is_digit d1 && is_digit d2
  | _ => false
  end.

Definition code (c : ascii) : Z := Z.of_N (N_of_ascii c).

(** The reviews of a first sync: two of the same day, with ids "9" and
    "10", and an older one. *)
Definition unsorted_batch : list (pydict value) :=
  map flatten_review
    [sample_review "r1" "2024-01-02" []; sample_review "10" "2024-01-03" [];
     sample_review "9" "2024-01-03" []].

Definition malformed_record : pydict value :=
  dict_of_pairs
    [("id", VStr "r0"); ("date", VStr "02/01/2024"); ("score", VInt 4);
     ("scoreText", VStr "4"); ("title", VStr "Fine"); ("text", VStr "Does the job")].

Definition malformed_stored : storage :=
  write_reviews (reviews_filename "com.example.app") [malformed_record] no_files.

(** Nothing new on the service, two days after the cutoff. *)
Definition quiet_env : environment :=
  mkenv (single_page []) (mkdate 2024 1 5).

Definition malformed_env : environment :=
  mkenv (single_page [sample_review "r7" "02/01/2024" []]) (mkdate 2024 1 5).

(** The names of the six fixed fields, in the order of the dict display. *)
Definition fixed_names : list string :=
  ["id"; "date"; "score"; "scoreText"; "title"; "text"].

(** Keys in order of first appearance: [seen], then each key of [ks] that
    has not appeared before. *)
Definition add_keys (seen ks : list string) : list string :=
  fold_left (fun acc k => if existsb (String.eqb k) acc then acc else acc ++ [k])
            ks seen.

(** A service that answers every request with the same page and a token
    for one more. *)
Definition endless (rs : list RawReview) : network :=
  mknetwork (fun _ _ => Ok (mkresponse 200 (Ok (JPage rs (Some "more")))))
            (fun _ => error_page 404).

(** [x] has a sort key. *)
Definition keyed (x : pydict value) : Prop :=
  exists k, sort_key x = Ok k.

(** The same records, whatever their order and multiplicity. *)
Definition same_records (l l' : list (pydict value)) : Prop :=
  forall d, In d l <-> In d l'.

(** * Properties *)

(** ** Parsing dates *)

Example strptime_padded :
  strptime (VStr "2024-03-01") = Ok (mkdate 2024 3 1).
Proof. reflexivity. Qed.

Example strptime_unpadded :
  strptime (VStr "2024-3-1") = Ok (mkdate 2024 3 1).
Proof. reflexivity. Qed.

Example strptime_bad_day :
  strptime (VStr "2023-02-29") = Raise ValueError.
Proof. reflexivity. Qed.

Example strptime_trailing :
  strptime (VStr "2024-03-011") = Raise ValueError.
Proof. reflexivity. Qed.

Example strptime_not_a_date :
  strptime (VStr "yesterday") = Raise ValueError.
Proof. reflexivity. Qed.

(** ** Fetch operations *)

Lemma json_if_200_not_200 (B : Type) (r : response B) :
  status_code r <> 200 -> json_if_200 r = Ok None.
Proof.
  intros Hc. unfold json_if_200.
  destruct (Z.eqb_spec (status_code r) 200); [contradiction|reflexivity].
Qed.

(** C7, as stated, fails: with the transport down, [get_reviews] does not
    return [None]; the [ConnectionError] of [requests.get] reaches the
    caller. *)
Lemma get_reviews_offline_raises :
  get_reviews offline "com.example.app" None = Raise ConnectionError
  /\ get_reviews offline "com.example.app" None <> Ok None.
Proof. split; [reflexivity | discriminate]. Qed.

(** C7, amended: each of the four fetch operations returns [None] on a
    response whose status is not 200, and lets an exception raised by
    [requests.get], such as the one for a transport error, through to its
    caller. *)
Theorem fetch_operations_contract (net : network) (app_id : string)
    (tok : option string) :
  (forall r,
      requests_get_reviews net (reviews_url app_id) (reviews_params tok) = Ok r ->
      status_code r <> 200 -> get_reviews net app_id tok = Ok None)
  /\ (forall e,
      requests_get_reviews net (reviews_url app_id) (reviews_params tok) = Raise e ->
      get_reviews net app_id tok = Raise e)
  /\ (forall r,
      requests_get net (appinfo_url app_id) = Ok r ->
      status_code r <> 200 -> get_appinfo net app_id = Ok None)
  /\ (forall e,
      requests_get net (appinfo_url app_id) = Raise e ->
      get_appinfo net app_id = Raise e)
  /\ (forall r,
      requests_get net (permissions_url app_id) = Ok r ->
      status_code r <> 200 -> get_permissions net app_id = Ok None)
  /\ (forall e,
      requests_get net (permissions_url app_id) = Raise e ->
      get_permissions net app_id = Raise e)
  /\ (forall r,
      requests_get net (datasafety_url app_id) = Ok r ->
      status_code r <> 200 -> get_datasafety net app_id = Ok None)
  /\ (forall e,
      requests_get net (datasafety_url app_id) = Raise e ->
      get_datasafety net app_id = Raise e).
Proof.
  unfold get_reviews, get_appinfo, get_permissions, get_datasafety.
  repeat split; intros;
    match goal with
    | H : _ = Ok _ |- _ => rewrite H; simpl; now apply json_if_200_not_200
    | H : _ = Raise _ |- _ => now rewrite H
    end.
Qed.

Lemma fetch_operations_contract_witness :
  get_reviews unavailable "com.example.app" (Some "page2") = Ok None
  /\ get_permissions offline "com.example.app" = Raise ConnectionError.
Proof.
  split.
  - apply (proj1 (fetch_operations_contract unavailable "com.example.app"
                    (Some "page2"))
             (mkresponse 503 (Raise JSONDecodeError)));
      [reflexivity | simpl; lia].
  - apply (fetch_operations_contract offline "com.example.app" None).
    reflexivity.
Defined.

(** ** The log line of [save_app_reviews] *)

Lemma count_message_raises (reviews : list (pydict value)) :
  count_message reviews = Raise TypeError.
Proof. reflexivity. Qed.

Lemma extract_all_reviews_of_fetch {O : SetOrder} fuel net app_id upto_date all :
  fetch_pages fuel net app_id upto_date None [] = Some (Ok all) ->
  extract_all_reviews fuel net app_id upto_date
  = Some (Ok (remove_duplicates (map flatten_review all))).
Proof. unfold extract_all_reviews. now intros ->. Qed.

Lemma extract_all_reviews_raise {O : SetOrder} fuel net app_id upto_date e :
  fetch_pages fuel net app_id upto_date None [] = Some (Raise e) ->
  extract_all_reviews fuel net app_id upto_date = Some (Raise e).
Proof. unfold extract_all_reviews. now intros ->. Qed.

Lemma save_app_reviews_after_fetch {O : SetOrder} fuel env app_id st upto reviews :
  minus_days 2 (today env) = Ok upto ->
  fetch_for_sync fuel env app_id (load_reviews st (reviews_filename app_id)) upto
  = Some (Ok reviews) ->
  save_app_reviews fuel env app_id st = Some (Raise TypeError, st).
Proof.
  intros Hd Hf. unfold save_app_reviews. now rewrite Hd, Hf, count_message_raises.
Qed.

Lemma save_app_reviews_keeps_storage {O : SetOrder} fuel env app_id st r st' :
  save_app_reviews fuel env app_id st = Some (r, st') ->
  st' = st /\ exists e, r = Raise e.
Proof.
  unfold save_app_reviews.
  destruct (minus_days 2 (today env)) as [upto|e].
  - destruct (fetch_for_sync _ _ _ _ _) as [[reviews|e]|].
    + rewrite count_message_raises. intros [= <- <-]. eauto.
    + intros [= <- <-]. eauto.
    + discriminate.
  - intros [= <- <-]. eauto.
Qed.

(** C1: whenever the fetch of line 95 returns its list, [save_app_reviews]
    raises [TypeError] on line 96, whatever the app identifier, the
    service and the files; and no run that ends, however it ends, has
    returned normally or touched a file. *)
Theorem save_app_reviews_type_error {O : SetOrder} (fuel : nat)
    (env : environment) (app_id : string) (st : storage) :
  (forall reviews, count_message reviews = Raise TypeError)
  /\ (forall upto reviews,
        minus_days 2 (today env) = Ok upto ->
        fetch_for_sync fuel env app_id
          (load_reviews st (reviews_filename app_id)) upto = Some (Ok reviews) ->
        save_app_reviews fuel env app_id st = Some (Raise TypeError, st))
  /\ (forall r st',
        save_app_reviews fuel env app_id st = Some (r, st') ->
        st' = st /\ exists e, r = Raise e).
Proof.
  split; [exact count_message_raises|].
  split.
  - intros upto reviews. apply save_app_reviews_after_fetch.
  - intros r st'. apply save_app_reviews_keeps_storage.
Qed.

Lemma save_app_reviews_type_error_witness :
  save_app_reviews (O := nodup_order) 3 first_run_env "com.example.app" no_files
  = Some (Raise TypeError, no_files).
Proof.
  apply (proj1 (proj2 (save_app_reviews_type_error (O := nodup_order) 3
                         first_run_env "com.example.app" no_files))
           (mkdate 2024 1 1)
           (remove_duplicates
              (map flatten_review [sample_review "r1" "2024-01-02" []])));
    reflexivity.
Defined.

(** C3 (code bug): a first sync of an app with one remote review, run
    twice.  Each run stops on the [TypeError] of line 96; no archive file
    exists after the first run or after the second, so there is no
    persisted archive to compare. *)
Theorem sync_twice_persists_nothing {O : SetOrder} :
  save_app_reviews 3 first_run_env "com.example.app" no_files
  = Some (Raise TypeError, no_files)
  /\ sync_twice 3 first_run_env "com.example.app" no_files
     = Some (Raise TypeError, no_files)
  /\ reviews_files no_files (reviews_filename "com.example.app") = None.
Proof.
  assert (H : save_app_reviews 3 first_run_env "com.example.app" no_files
              = Some (Raise TypeError, no_files)).
  { apply save_app_reviews_after_fetch with
      (upto := mkdate 2024 1 1)
      (reviews := remove_duplicates
                    (map flatten_review [sample_review "r1" "2024-01-02" []]));
      [reflexivity|].
    unfold fetch_for_sync. simpl.
    now apply extract_all_reviews_of_fetch
      with (all := [sample_review "r1" "2024-01-02" []]). }
  split; [exact H|]. split; [|reflexivity].
  unfold sync_twice. rewrite H. exact H.
Qed.

(** ** Deduplication *)

Section Dedup.
Context {O : SetOrder}.

Lemma set_iter_In (l : list item_tuple) (t : item_tuple) :
  In t (set_iter l) <-> In t l.
Proof.
  rewrite <- (nodup_In item_tuple_eq_dec l t).
  split; apply Permutation_in;
    [apply set_iter_perm | apply Permutation_sym, set_iter_perm].
Qed.

Lemma set_iter_NoDup (l : list item_tuple) : NoDup (set_iter l).
Proof.
  apply Permutation_NoDup with (l := nodup item_tuple_eq_dec l).
  - apply Permutation_sym, set_iter_perm.
  - apply NoDup_nodup.
Qed.

Lemma remove_duplicates_In (reviews : list (pydict value)) (d : pydict value) :
  In d (remove_duplicates reviews) <-> In d reviews.
Proof.
  unfold remove_duplicates. rewrite in_map_iff. split.
  - intros (t & <- & Ht). apply set_iter_In, in_map_iff in Ht.
    destruct Ht as (d' & <- & Hd'). now rewrite dict_of_pairs_items.
  - intros Hd. exists (items d). split; [apply dict_of_pairs_items|].
    apply set_iter_In, in_map. exact Hd.
Qed.

Lemma remove_duplicates_items (reviews : list (pydict value)) :
  map (@items value) (remove_duplicates reviews)
  = set_iter (map (@items value) reviews).
Proof.
  unfold remove_duplicates. rewrite map_map.
  rewrite <- (map_id (set_iter _)) at 2.
  apply map_ext_in. intros t Ht.
  apply set_iter_In, in_map_iff in Ht. destruct Ht as (d & <- & _).
  now rewrite dict_of_pairs_items.
Qed.

Lemma remove_duplicates_NoDup (reviews : list (pydict value)) :
  NoDup (remove_duplicates reviews).
Proof.
  apply (NoDup_map_inv (@items value)).
  rewrite remove_duplicates_items. apply set_iter_NoDup.
Qed.

Lemma remove_duplicates_length (reviews : list (pydict value)) :
  length (remove_duplicates reviews)
  = length (nodup item_tuple_eq_dec (map (@items value) reviews)).
Proof.
  unfold remove_duplicates. rewrite length_map.
  apply Permutation_length, set_iter_perm.
Qed.
End Dedup.

(** C2, as stated, fails: [review_ab] and [review_ba] have equal
    key/value sets, yet deduplication keeps both. *)
Lemma remove_duplicates_keeps_reordered :
  same_mapping review_ab review_ba
  /\ forall O : SetOrder, length (remove_duplicates [review_ab; review_ba]) = 2%nat.
Proof.
  split.
  - intros k. unfold dict_get. simpl.
    repeat match goal with
           | |- context [String.eqb k ?s] => destruct (String.eqb_spec k s); subst
           end; try reflexivity; try discriminate.
  - intros O. rewrite remove_duplicates_length. reflexivity.
Qed.

(** C2, amended: deduplication ([remove_duplicates], and the same step
    that ends [extract_all_reviews]) returns exactly one representative
    per distinct ordered sequence of key/value items: the output has no
    repetition, holds exactly the records of the input, and its size is
    the number of distinct item sequences; records that differ only in
    key order are distinct. *)
Theorem remove_duplicates_distinct_items {O : SetOrder}
    (reviews : list (pydict value)) :
  NoDup (remove_duplicates reviews)
  /\ (forall d, In d (remove_duplicates reviews) <-> In d reviews)
  /\ length (remove_duplicates reviews)
     = length (nodup item_tuple_eq_dec (map (@items value) reviews))
  /\ (forall d1 d2 : pydict value, d1 = d2 <-> items d1 = items d2)
  /\ (forall fuel net app_id upto_date all,
        fetch_pages fuel net app_id upto_date None [] = Some (Ok all) ->
        extract_all_reviews fuel net app_id upto_date
        = Some (Ok (remove_duplicates (map flatten_review all)))).
Proof.
  split; [apply remove_duplicates_NoDup|].
  split; [apply remove_duplicates_In|].
  split; [apply remove_duplicates_length|].
  split.
  - intros d1 d2. split; [now intros -> | apply pydict_ext].
  - intros fuel net app_id upto_date all.
    apply extract_all_reviews_of_fetch.
Qed.

Lemma remove_duplicates_distinct_items_witness :
  extract_all_reviews (O := nodup_order) 3
    (single_page [sample_review "r1" "2024-01-02" [];
                  sample_review "r1" "2024-01-02" []])
    "com.example.app" None
  = Some (Ok (remove_duplicates (O := nodup_order)
                (map flatten_review [sample_review "r1" "2024-01-02" [];
                                     sample_review "r1" "2024-01-02" []])))
  /\ length (remove_duplicates (O := nodup_order)
               (map flatten_review [sample_review "r1" "2024-01-02" [];
                                    sample_review "r1" "2024-01-02" []])) = 1%nat.
Proof.
  split.
  - apply (remove_duplicates_distinct_items (O := nodup_order) []).
    reflexivity.
  - reflexivity.
Defined.

(** ** Lookups after a run of stores *)

Section DictFacts.
Variable V : Type.
Implicit Types (l t : list (string * V)) (d : pydict V) (k : string).

Lemma get_item_app k l1 l2 :
  get_item k (l1 ++ l2)
  = match get_item k l1 with
    | Some v => Some v
    | None => get_item k l2
    end.
Proof.
  induction l1 as [|[k0 v0] l1 IH]; simpl; [reflexivity|].
  now destruct (String.eqb k k0).
Qed.

Lemma get_item_In_keys k l :
  get_item k l <> None <-> In k (map fst l).
Proof.
  induction l as [|[k0 v0] l IH]; simpl; [tauto|].
  destruct (String.eqb_spec k k0) as [->|Hne].
  - split; [now left | discriminate].
  - rewrite IH. split; [now right | intros [E|H]; [congruence|exact H]].
Qed.

Lemma get_item_not_In k l : ~ In k (map fst l) -> get_item k l = None.
Proof.
  intros H. destruct (get_item k l) eqn:E; [|reflexivity].
  exfalso. apply H, get_item_In_keys. congruence.
Qed.

Lemma get_item_rev_unique k l :
  keys_unique l = true -> get_item k (rev l) = get_item k l.
Proof.
  induction l as [|[k0 v0] l IH]; simpl; intros Hu; [reflexivity|].
  apply andb_true_iff in Hu as [Hk Hu]. apply negb_true_iff in Hk.
  rewrite get_item_app, (IH Hu). simpl.
  destruct (String.eqb_spec k k0) as [->|Hne].
  - apply has_key_get_none in Hk. now rewrite Hk.
  - now destruct (get_item k l).
Qed.

(** After [d.update(t)], a key reads the last value [t] gives it, and
    its old value when [t] does not mention it. *)
Lemma dict_get_update k t : forall d,
  dict_get k (dict_update d t)
  = match get_item k (rev t) with
    | Some v => Some v
    | None => dict_get k d
    end.
Proof.
  unfold dict_update.
  induction t as [|[k0 v0] t IH]; intros d; simpl; [reflexivity|].
  rewrite IH, get_item_app. simpl.
  destruct (get_item k (rev t)); [reflexivity|].
  unfold dict_get; simpl.
  destruct (String.eqb_spec k k0) as [->|Hne].
  - apply get_set_same.
  - now apply get_set_other.
Qed.

Lemma dict_get_of_pairs k t :
  dict_get k (dict_of_pairs t) = get_item k (rev t).
Proof.
  unfold dict_of_pairs. rewrite dict_get_update.
  now destruct (get_item k (rev t)).
Qed.

Lemma dict_get_update_dict k d d' :
  dict_get k (dict_update d (items d'))
  = match dict_get k d' with
    | Some v => Some v
    | None => dict_get k d
    end.
Proof.
  rewrite dict_get_update, get_item_rev_unique; [reflexivity|].
  apply items_unique.
Qed.
End DictFacts.

(** ** Flattening *)

Lemma flatten_criterias_update (review : RawReview) :
  flatten_criterias review
  = dict_of_pairs (map criterion_item (criterias_of review)).
Proof.
  unfold flatten_criterias, dict_of_pairs, dict_update.
  generalize (@empty_dict value).
  induction (criterias_of review) as [|c cs IH]; intros d; simpl; [reflexivity|].
  apply IH.
Qed.

Lemma flatten_criterias_get (review : RawReview) (k : string) :
  dict_get k (flatten_criterias review)
  = get_item k (rev (map criterion_item (criterias_of review))).
Proof. rewrite flatten_criterias_update. apply dict_get_of_pairs. Qed.

Lemma flatten_review_get (review : RawReview) (k : string) :
  dict_get k (flatten_review review)
  = match get_item k (rev (map criterion_item (criterias_of review))) with
    | Some v => Some v
    | None => get_item k (fixed_fields review)
    end.
Proof.
  unfold flatten_review.
  rewrite dict_get_update_dict, flatten_criterias_get.
  destruct (get_item k (rev _)); [reflexivity|].
  rewrite dict_get_of_pairs. now apply get_item_rev_unique.
Qed.

Lemma criterion_names (cs : list criterion) :
  map fst (map criterion_item cs) = map criteria cs.
Proof. rewrite map_map. reflexivity. Qed.

Lemma fixed_fields_get (review : RawReview) (k : string) (v : value) :
  In (k, v) (fixed_fields review) -> get_item k (fixed_fields review) = Some v.
Proof.
  simpl. intros H.
  repeat (destruct H as [[= <- <-]|H]; [reflexivity|]).
  contradiction.
Qed.

(** C8, as stated, fails: a criterion whose name is that of a fixed field
    takes the field's place, so the field is not copied verbatim. *)
Lemma flatten_review_criterion_named_id :
  let review :=
    sample_review "r1" "2024-01-02" [mkcriterion "id" (Some (VInt 4))] in
  dict_get "id" (flatten_review review) = Some (VInt 4)
  /\ dict_get "id" (flatten_review review) <> Some (rv_id review).
Proof. split; [reflexivity | discriminate]. Qed.

(** C8, amended: flattening maps a raw review to one record in which
    every criterion name holds the rating of its last occurrence in the
    review ([None] when the entry has no rating), every one of the six
    fixed fields whose name is not also a criterion name holds the value
    of the raw review, and there is no other key. *)
Theorem flatten_review_fields (review : RawReview) :
  (forall k v,
      In (k, v) (fixed_fields review) ->
      ~ In k (map criteria (criterias_of review)) ->
      dict_get k (flatten_review review) = Some v)
  /\ (forall cs1 c cs2,
      criterias_of review = cs1 ++ c :: cs2 ->
      ~ In (criteria c) (map criteria cs2) ->
      dict_get (criteria c) (flatten_review review) = Some (rating_value c))
  /\ (forall c, rating c = None -> rating_value c = VNone)
  /\ (forall k,
      dict_get k (flatten_review review) <> None
      <-> In k (map fst (fixed_fields review))
          \/ In k (map criteria (criterias_of review))).
Proof.
  split; [|split; [|split]].
  - intros k v Hin Hnot. rewrite flatten_review_get, get_item_not_In.
    + now apply fixed_fields_get.
    + now rewrite map_rev, criterion_names, <- in_rev.
  - intros cs1 c cs2 E Hnot. rewrite flatten_review_get, E.
    rewrite map_app, rev_app_distr. simpl. rewrite <- app_assoc, get_item_app.
    rewrite get_item_not_In.
    + simpl. now rewrite String.eqb_refl.
    + now rewrite map_rev, criterion_names, <- in_rev.
  - intros c H. unfold rating_value. now rewrite H.
  - intros k. rewrite flatten_review_get. split.
    + destruct (get_item k (rev _)) eqn:E.
      * intros _. right.
        rewrite <- criterion_names, (in_rev (map fst _)), <- map_rev.
        apply get_item_In_keys. congruence.
      * intros H. left. now apply get_item_In_keys.
    + intros [H|H].
      * destruct (get_item k (rev _)); [discriminate|].
        now apply get_item_In_keys.
      * rewrite <- criterion_names, (in_rev (map fst _)), <- map_rev in H.
        apply get_item_In_keys in H.
        destruct (get_item k (rev _)); [discriminate | contradiction].
Qed.

Lemma flatten_review_fields_witness :
  let review :=
    sample_review "r1" "2024-01-02"
      [mkcriterion "vaf_a" (Some (VInt 1)); mkcriterion "vaf_b" None;
       mkcriterion "vaf_a" (Some (VInt 3))] in
  dict_get "title" (flatten_review review) = Some (VStr "Great")
  /\ dict_get "vaf_a" (flatten_review review) = Some (VInt 3)
  /\ dict_get "vaf_b" (flatten_review review) = Some VNone.
Proof.
  intros review. split; [|split].
  - apply (proj1 (flatten_review_fields review)).
    + simpl. tauto.
    + simpl. intros [H|[H|[H|[]]]]; discriminate.
  - apply (proj1 (proj2 (flatten_review_fields review))
             [mkcriterion "vaf_a" (Some (VInt 1)); mkcriterion "vaf_b" None]
             (mkcriterion "vaf_a" (Some (VInt 3))) []).
    + reflexivity.
    + simpl. tauto.
  - apply (proj1 (proj2 (flatten_review_fields review))
             [mkcriterion "vaf_a" (Some (VInt 1))]
             (mkcriterion "vaf_b" None)
             [mkcriterion "vaf_a" (Some (VInt 3))]).
    + reflexivity.
    + simpl. intros [H|[]]; discriminate.
Defined.

(** ** Criteria counts *)

Lemma bump_bump (m n : Z) (o : option Z) :
  0 <= m -> 0 <= n -> bump n (bump m o) = bump (m + n) o.
Proof.
  intros Hm Hn. unfold bump.
  destruct (Z.eqb_spec m 0), (Z.eqb_spec n 0), (Z.eqb_spec (m + n) 0);
    try lia; subst; try reflexivity; f_equal; lia.
Qed.

Lemma occurrences_nonneg k ks : 0 <= occurrences k ks.
Proof. unfold occurrences. lia. Qed.

Lemma vaf_only_nonneg k n : 0 <= n -> 0 <= vaf_only k n.
Proof. unfold vaf_only. destruct (String.prefix "vaf" k); lia. Qed.

Lemma vaf_only_add k m n : vaf_only k (m + n) = vaf_only k m + vaf_only k n.
Proof. unfold vaf_only. now destruct (String.prefix "vaf" k). Qed.

Lemma count_key_get (counts : pydict Z) (key k : string) :
  dict_get k (count_key counts key)
  = bump (vaf_only k (if string_dec key k then 1 else 0)) (dict_get k counts).
Proof.
  unfold count_key, vaf_only.
  destruct (string_dec key k) as [->|Hne].
  - destruct (String.prefix "vaf" k); [|reflexivity].
    unfold dict_get, get_default, dict_get. simpl. now rewrite get_set_same.
  - destruct (String.prefix "vaf" key) eqn:Ek.
    + unfold dict_get at 1. simpl. rewrite get_set_other by congruence.
      now destruct (String.prefix "vaf" k).
    + now destruct (String.prefix "vaf" k).
Qed.

Lemma count_keys_get (ks : list string) (k : string) : forall counts,
  dict_get k (fold_left count_key ks counts)
  = bump (vaf_only k (occurrences k ks)) (dict_get k counts).
Proof.
  induction ks as [|key ks IH]; intros counts; simpl.
  { unfold vaf_only, occurrences. simpl. now destruct (String.prefix "vaf" k). }
  rewrite IH, count_key_get, bump_bump, <- vaf_only_add.
  - f_equal. f_equal. unfold occurrences. simpl.
    destruct (string_dec key k); lia.
  - apply vaf_only_nonneg. destruct (string_dec key k); lia.
  - apply vaf_only_nonneg, occurrences_nonneg.
Qed.

Lemma count_occ_unique (V : Type) (k : string) (l : list (string * V)) :
  keys_unique l = true ->
  count_occ string_dec (map fst l) k = if has_key k l then 1%nat else 0%nat.
Proof.
  induction l as [|[k0 v0] l IH]; simpl; intros Hu; [reflexivity|].
  apply andb_true_iff in Hu as [Hk Hu]. apply negb_true_iff in Hk.
  rewrite (IH Hu).
  destruct (string_dec k0 k) as [->|Hne].
  - rewrite String.eqb_refl, Hk. reflexivity.
  - destruct (String.eqb_spec k k0); [congruence | reflexivity].
Qed.

Lemma count_review_get (counts : pydict Z) (review : pydict value) (k : string) :
  dict_get k (count_review counts review)
  = bump (vaf_only k (if contains k review then 1 else 0)) (dict_get k counts).
Proof.
  unfold count_review, dict_keys. rewrite count_keys_get.
  unfold occurrences. rewrite count_occ_unique by apply items_unique.
  unfold contains. now destruct (has_key k (items review)).
Qed.

Lemma count_reviews_get (reviews : list (pydict value)) (k : string) :
  forall counts,
    dict_get k (fold_left count_review reviews counts)
    = bump (vaf_only k (reviews_with k reviews)) (dict_get k counts).
Proof.
  induction reviews as [|r rs IH]; intros counts; simpl.
  - unfold vaf_only, reviews_with. simpl. now destruct (String.prefix "vaf" k).
  - rewrite IH, count_review_get, bump_bump, <- vaf_only_add.
    + f_equal. f_equal. unfold reviews_with. simpl.
      destruct (contains k r); simpl length; lia.
    + apply vaf_only_nonneg. destruct (contains k r); lia.
    + apply vaf_only_nonneg. unfold reviews_with. lia.
Qed.

Lemma count_criterias_get (reviews : list (pydict value)) (k : string) (n : Z) :
  dict_get k (count_criterias reviews) = Some n
  <-> String.prefix "vaf" k = true /\ n = reviews_with k reviews /\ 0 < n.
Proof.
  unfold count_criterias. rewrite count_reviews_get.
  unfold bump, vaf_only, dict_get. simpl.
  assert (0 <= reviews_with k reviews) by (unfold reviews_with; lia).
  destruct (String.prefix "vaf" k).
  - destruct (Z.eqb_spec (reviews_with k reviews) 0) as [E|E].
    + split; [discriminate | intros (_ & -> & ?); lia].
    + split; [intros [= <-]; repeat split; lia | intros (_ & -> & _); reflexivity].
  - simpl. split; [discriminate | intros (? & _); discriminate].
Qed.

(** C10: [save_app_review_criterias] writes, from the archive currently
    stored (an absent file counting as the empty archive), the mapping
    whose keys are exactly the keys starting with "vaf" that some stored
    review has, each with the number of stored reviews that have it; on
    three records of which two have [vaf_clarity] and one [vaf_speed] it
    writes [{"vaf_clarity": 2, "vaf_speed": 1}]. *)
Theorem save_app_review_criterias_counts (app_id : string) (st : storage) :
  (exists counts,
      criterias_files (save_app_review_criterias app_id st)
                      (criterias_filename app_id) = Some counts
      /\ forall k n,
          dict_get k counts = Some n
          <-> String.prefix "vaf" k = true
              /\ n = reviews_with k (load_reviews st (reviews_filename app_id))
              /\ 0 < n)
  /\ (reviews_files st (reviews_filename app_id) = None ->
      load_reviews st (reviews_filename app_id) = [])
  /\ reviews_files (save_app_review_criterias app_id st) = reviews_files st
  /\ option_map (@items Z)
       (criterias_files
          (save_app_review_criterias "com.example.app" three_records_stored)
          (criterias_filename "com.example.app"))
     = Some [("vaf_clarity", 2); ("vaf_speed", 1)].
Proof.
  split; [|split; [|split]].
  - exists (count_criterias (load_reviews st (reviews_filename app_id))).
    split.
    + unfold save_app_review_criterias, write_criterias, write. simpl.
      now rewrite String.eqb_refl.
    + intros k n. apply count_criterias_get.
  - unfold load_reviews. now intros ->.
  - reflexivity.
  - reflexivity.
Qed.

Lemma save_app_review_criterias_counts_witness :
  load_reviews no_files (reviews_filename "com.example.app") = []
  /\ option_map (@items Z)
       (criterias_files (save_app_review_criterias "com.example.app" no_files)
                        (criterias_filename "com.example.app"))
     = Some [].
Proof.
  split.
  - apply (save_app_review_criterias_counts "com.example.app" no_files).
    reflexivity.
  - reflexivity.
Defined.

(** ** Date order *)

Lemma date_ltb_lt (a b : date) : date_ltb a b = true <-> date_lt a b.
Proof.
  unfold date_ltb, date_lt.
  rewrite !orb_true_iff, !andb_true_iff, !orb_true_iff, !andb_true_iff,
    !Z.ltb_lt, !Z.eqb_eq.
  tauto.
Qed.

Lemma date_ltb_irrefl (a : date) : date_ltb a a = false.
Proof.
  apply not_true_is_false. rewrite date_ltb_lt. unfold date_lt. lia.
Qed.

Lemma date_ltb_asym (a b : date) : date_ltb a b = true -> date_ltb b a = false.
Proof.
  intros H. apply not_true_is_false. rewrite date_ltb_lt in *.
  unfold date_lt in *. lia.
Qed.

Lemma date_eqb_eq (a b : date) : date_eqb a b = true <-> a = b.
Proof.
  unfold date_eqb. rewrite !andb_true_iff, !Z.eqb_eq.
  destruct a, b; simpl. split; [intros [[-> ->] ->]; reflexivity|].
  now intros [= -> -> ->].
Qed.

Lemma date_trichotomy (a b : date) :
  date_eqb a b = false -> date_ltb a b = false -> date_ltb b a = true.
Proof.
  intros He Hl. apply date_ltb_lt.
  assert (Hne : a <> b) by (intros E; apply date_eqb_eq in E; congruence).
  assert (Hn : ~ date_lt a b) by (rewrite <- date_ltb_lt; congruence).
  unfold date_lt in *. destruct a as [ya ma da], b as [yb mb db]; simpl in *.
  assert (~ (ya = yb /\ ma = mb /\ da = db)) by (intros (-> & -> & ->); auto).
  lia.
Qed.

Lemma prev_day_before (d : date) : date_ltb (prev_day d) d = true.
Proof.
  apply date_ltb_lt. unfold prev_day, date_lt.
  destruct (Z.ltb_spec 1 (day d)); [simpl; lia|].
  destruct (Z.ltb_spec 1 (month d)); simpl; lia.
Qed.

Lemma next_day_after (d : date) : date_ltb d (next_day d) = true.
Proof.
  apply date_ltb_lt. unfold next_day, date_lt.
  destruct (Z.ltb_spec (day d) (days_in_month (year d) (month d))); [simpl; lia|].
  destruct (Z.ltb_spec (month d) 12); simpl; lia.
Qed.

(** ** The cutoff filter *)

Lemma cutoff_filter_parsed (upto_date : date) (reviews : list RawReview) :
  Forall parses reviews ->
  cutoff_filter upto_date reviews = Ok (filter (after_cutoff upto_date) reviews).
Proof.
  induction 1 as [|r t [d Hd] _ IH]; simpl; [reflexivity|].
  unfold after_cutoff. rewrite Hd, IH. reflexivity.
Qed.

Lemma cutoff_filter_inv (upto_date : date) (reviews kept : list RawReview) :
  cutoff_filter upto_date reviews = Ok kept ->
  Forall parses reviews /\ kept = filter (after_cutoff upto_date) reviews.
Proof.
  revert kept. induction reviews as [|r t IH]; simpl; intros kept H.
  - injection H as <-. split; [constructor | reflexivity].
  - unfold after_cutoff.
    destruct (strptime (rv_date r)) as [d|e] eqn:Hd; simpl in H; [|discriminate].
    destruct (cutoff_filter upto_date t) as [rest|e]; simpl in H; [|discriminate].
    destruct (IH rest eq_refl) as [Hp ->]. injection H as <-.
    split; [constructor; [now exists d | exact Hp] | reflexivity].
Qed.

(** A review whose date does not parse makes the comprehension raise. *)
Lemma cutoff_filter_raises (upto_date : date) (before after : list RawReview)
    (r : RawReview) (e : exn) :
  Forall parses before ->
  strptime (rv_date r) = Raise e ->
  cutoff_filter upto_date (before ++ r :: after) = Raise e.
Proof.
  induction 1 as [|r0 t [d Hd] _ IH]; simpl; intros Hr.
  - now rewrite Hr.
  - rewrite Hd. simpl. now rewrite (IH Hr).
Qed.

(** One turn of the loop on a page that was served, with a cutoff. *)
Lemma fetch_pages_step_cutoff fuel net app_id upto_date tok acc rs next :
  get_reviews net app_id tok = Ok (Some (JPage rs next)) ->
  Forall parses rs ->
  fetch_pages (S fuel) net app_id (Some upto_date) tok acc
  = match filter (after_cutoff upto_date) rs with
    | [] => Some (Ok acc)
    | kept =>
        if truthy next
        then fetch_pages fuel net app_id (Some upto_date) next (acc ++ kept)
        else Some (Ok (acc ++ kept))
    end.
Proof.
  intros Hg Hp. simpl. rewrite Hg, (cutoff_filter_parsed upto_date Hp).
  now destruct (filter (after_cutoff upto_date) rs).
Qed.

(** One turn of the loop on a page that was served, without a cutoff. *)
Lemma fetch_pages_step_full fuel net app_id tok acc rs next :
  get_reviews net app_id tok = Ok (Some (JPage rs next)) ->
  fetch_pages (S fuel) net app_id None tok acc
  = if truthy next
    then fetch_pages fuel net app_id None next (acc ++ rs)
    else Some (Ok (acc ++ rs)).
Proof. intros Hg. simpl. now rewrite Hg. Qed.

(** C4: with a cutoff [D], the comprehension applied to each page keeps
    exactly the reviews dated strictly after [D]: a review dated [D] or
    earlier is dropped, and of three reviews dated the day before [D],
    [D] and the day after [D] only the last survives; the loop goes on
    with the filtered page. *)
Theorem cutoff_filter_strict (upto_date : date) (page : list RawReview) :
  (Forall parses page ->
   cutoff_filter upto_date page = Ok (filter (after_cutoff upto_date) page))
  /\ (forall kept r d,
        cutoff_filter upto_date page = Ok kept ->
        strptime (rv_date r) = Ok d ->
        (In r kept <-> In r page /\ date_ltb upto_date d = true))
  /\ (forall d, d = upto_date \/ date_ltb d upto_date = true ->
        date_ltb upto_date d = false)
  /\ (forall r1 r2 r3,
        strptime (rv_date r1) = Ok (prev_day upto_date) ->
        strptime (rv_date r2) = Ok upto_date ->
        strptime (rv_date r3) = Ok (next_day upto_date) ->
        cutoff_filter upto_date [r1; r2; r3] = Ok [r3])
  /\ (forall fuel net app_id tok acc next,
        get_reviews net app_id tok = Ok (Some (JPage page next)) ->
        Forall parses page ->
        fetch_pages (S fuel) net app_id (Some upto_date) tok acc
        = match filter (after_cutoff upto_date) page with
          | [] => Some (Ok acc)
          | kept =>
              if truthy next
              then fetch_pages fuel net app_id (Some upto_date) next (acc ++ kept)
              else Some (Ok (acc ++ kept))
          end).
Proof.
  split; [apply cutoff_filter_parsed|].
  split.
  { intros kept r d Hk Hd. apply cutoff_filter_inv in Hk as [_ ->].
    rewrite filter_In. unfold after_cutoff. rewrite Hd. reflexivity. }
  split.
  { intros d [->|H]; [apply date_ltb_irrefl | now apply date_ltb_asym]. }
  split.
  { intros r1 r2 r3 H1 H2 H3. simpl. rewrite H1, H2, H3. simpl.
    rewrite (date_ltb_asym _ _ (prev_day_before upto_date)).
    rewrite date_ltb_irrefl, next_day_after. reflexivity. }
  intros fuel net app_id tok acc next. apply fetch_pages_step_cutoff.
Qed.

Lemma cutoff_filter_strict_witness :
  cutoff_filter (mkdate 2024 3 1)
    [sample_review "r1" "2024-02-29" []; sample_review "r2" "2024-03-01" [];
     sample_review "r3" "2024-03-02" []]
  = Ok [sample_review "r3" "2024-03-02" []].
Proof.
  apply (proj1 (proj2 (proj2 (proj2
           (cutoff_filter_strict (mkdate 2024 3 1) [])))));
    reflexivity.
Defined.

(** ** Pagination *)

Lemma serves_app net app_id (ps qs : list page) : forall tok,
  serves net app_id tok (ps ++ qs)
  <-> serves net app_id tok ps /\ serves net app_id (last_token tok ps) qs.
Proof.
  induction ps as [|p ps IH]; intros tok; simpl; [tauto|].
  rewrite IH. unfold last_token. simpl. tauto.
Qed.

Lemma fetch_pages_continue fuel net app_id upto_date tok acc (p : page) :
  get_reviews net app_id tok = Ok (Some (JPage (fst p) (snd p))) ->
  continues upto_date p ->
  fetch_pages (S fuel) net app_id upto_date tok acc
  = fetch_pages fuel net app_id upto_date (snd p) (acc ++ kept upto_date p).
Proof.
  intros Hg [Ht Hc]. destruct upto_date as [d|].
  - destruct Hc as [Hp Hk].
    rewrite fetch_pages_step_cutoff with (rs := fst p) (next := snd p); trivial.
    unfold kept in *.
    destruct (filter (after_cutoff d) (fst p)); [contradiction|].
    now rewrite Ht.
  - rewrite fetch_pages_step_full with (rs := fst p) (next := snd p); trivial.
    now rewrite Ht.
Qed.

Lemma fetch_pages_chain net app_id upto_date (pages : list page) :
  forall fuel tok acc,
    serves net app_id tok pages ->
    Forall (continues upto_date) pages ->
    fetch_pages (length pages + fuel) net app_id upto_date tok acc
    = fetch_pages fuel net app_id upto_date (last_token tok pages)
                  (acc ++ concat (map (kept upto_date) pages)).
Proof.
  induction pages as [|p ps IH]; intros fuel tok acc Hs Hc.
  - simpl. now rewrite app_nil_r.
  - destruct Hs as [Hg Hs]. inversion Hc as [|? ? Hp Hps]; subst.
    change (length (p :: ps) + fuel)%nat with (S (length ps + fuel)).
    rewrite fetch_pages_continue with (p := p); trivial.
    rewrite IH; trivial.
    unfold last_token. simpl. now rewrite app_assoc.
Qed.

Lemma fetch_pages_no_data fuel net app_id upto_date tok acc :
  get_reviews net app_id tok = Ok None
  \/ get_reviews net app_id tok = Ok (Some JEmpty) ->
  fetch_pages (S fuel) net app_id upto_date tok acc = Some (Ok acc).
Proof. intros [H|H]; simpl; now rewrite H. Qed.

Lemma fuel_split (n fuel : nat) :
  (n < fuel)%nat -> exists f, fuel = (n + S f)%nat.
Proof. intros H. exists (fuel - n - 1)%nat. lia. Qed.

Lemma fetch_pages_full_sweep net app_id (pages : list page) rs last fuel :
  serves net app_id None (pages ++ [(rs, last)]) ->
  Forall (fun p => truthy (snd p) = true) pages ->
  truthy last = false ->
  (length pages < fuel)%nat ->
  fetch_pages fuel net app_id None None []
  = Some (Ok (concat (map fst pages) ++ rs)).
Proof.
  intros Hs Ht Hl Hf. apply serves_app in Hs as [Hs [Hg _]].
  destruct (fuel_split Hf) as [f ->].
  rewrite fetch_pages_chain; trivial.
  - simpl in Hg.
    rewrite fetch_pages_step_full with (rs := rs) (next := last); trivial.
    simpl. now rewrite Hl.
  - eapply Forall_impl; [|exact Ht]. intros p Hp. now split.
Qed.

Lemma fetch_pages_cutoff_stop net app_id d (pages : list page) rs next fuel :
  serves net app_id None (pages ++ [(rs, next)]) ->
  Forall (continues (Some d)) pages ->
  Forall parses rs ->
  filter (after_cutoff d) rs = [] ->
  (length pages < fuel)%nat ->
  fetch_pages fuel net app_id (Some d) None []
  = Some (Ok (concat (map (kept (Some d)) pages))).
Proof.
  intros Hs Hc Hp He Hf. apply serves_app in Hs as [Hs [Hg _]].
  destruct (fuel_split Hf) as [f ->].
  rewrite fetch_pages_chain; trivial.
  simpl in Hg.
  rewrite fetch_pages_step_cutoff with (rs := rs) (next := next); trivial.
  now rewrite He.
Qed.

Lemma fetch_pages_failure net app_id upto_date (pages : list page) fuel :
  serves net app_id None pages ->
  Forall (continues upto_date) pages ->
  (exists r,
      requests_get_reviews net (reviews_url app_id)
        (reviews_params (last_token None pages)) = Ok r
      /\ (status_code r <> 200 \/ json r = Ok JEmpty)) ->
  (length pages < fuel)%nat ->
  fetch_pages fuel net app_id upto_date None []
  = Some (Ok (concat (map (kept upto_date) pages))).
Proof.
  intros Hs Hc (r & Hr & Hcj) Hf.
  destruct (fuel_split Hf) as [f ->].
  rewrite fetch_pages_chain; trivial.
  apply fetch_pages_no_data. unfold get_reviews. rewrite Hr. simpl.
  destruct (Z.eq_dec (status_code r) 200) as [E|Hne].
  - right. destruct Hcj as [?|Hj]; [contradiction|].
    unfold json_if_200. now rewrite E, Hj.
  - left. now apply json_if_200_not_200.
Qed.

(** C5: without a cutoff the loop consumes a chain of pages up to and
    including the first page without a continuation token; with a cutoff
    it stops at the first page none of whose reviews passes the filter,
    whether or not that page has a token, and leaves that page out; and a
    response that is not a success, or that carries no data, ends the loop
    with the reviews accumulated so far as its result. *)
Theorem fetch_pages_termination (net : network) (app_id : string)
    (pages : list page) (fuel : nat) :
  (forall rs last,
      serves net app_id None (pages ++ [(rs, last)]) ->
      Forall (fun p => truthy (snd p) = true) pages ->
      truthy last = false ->
      (length pages < fuel)%nat ->
      fetch_pages fuel net app_id None None []
      = Some (Ok (concat (map fst pages) ++ rs)))
  /\ (forall d rs next,
      serves net app_id None (pages ++ [(rs, next)]) ->
      Forall (continues (Some d)) pages ->
      Forall parses rs ->
      filter (after_cutoff d) rs = [] ->
      (length pages < fuel)%nat ->
      fetch_pages fuel net app_id (Some d) None []
      = Some (Ok (concat (map (kept (Some d)) pages))))
  /\ (forall upto_date,
      serves net app_id None pages ->
      Forall (continues upto_date) pages ->
      (exists r,
          requests_get_reviews net (reviews_url app_id)
            (reviews_params (last_token None pages)) = Ok r
          /\ (status_code r <> 200 \/ json r = Ok JEmpty)) ->
      (length pages < fuel)%nat ->
      fetch_pages fuel net app_id upto_date None []
      = Some (Ok (concat (map (kept upto_date) pages)))).
Proof.
  split; [|split].
  - intros rs last. apply fetch_pages_full_sweep.
  - intros d rs next. apply fetch_pages_cutoff_stop.
  - intros upto_date. apply fetch_pages_failure.
Qed.

Lemma fetch_pages_termination_witness :
  fetch_pages 5 three_pages "com.example.app" None None []
  = Some (Ok [sample_review "r5" "2024-03-05" [];
              sample_review "r4" "2024-03-03" [];
              sample_review "r1" "2024-02-20" []])
  /\ fetch_pages 5 three_pages "com.example.app" (Some (mkdate 2024 3 4)) None []
     = Some (Ok [sample_review "r5" "2024-03-05" []])
  /\ fetch_pages 5 first_page_only "com.example.app" None None []
     = Some (Ok [sample_review "r5" "2024-03-05" []]).
Proof.
  split; [|split].
  - apply (proj1 (fetch_pages_termination three_pages "com.example.app"
                    [page_one; page_two] 5)
             (fst page_three) (snd page_three)).
    + simpl. repeat split; reflexivity.
    + repeat constructor.
    + reflexivity.
    + simpl. lia.
  - apply (proj1 (proj2 (fetch_pages_termination three_pages "com.example.app"
                           [page_one] 5))
             (mkdate 2024 3 4) (fst page_two) (snd page_two)).
    + simpl. repeat split; reflexivity.
    + constructor; [|constructor].
      split; [reflexivity|].
      split; [|discriminate].
      constructor; [|constructor]. eexists. reflexivity.
    + constructor; [|constructor]. eexists. reflexivity.
    + reflexivity.
    + simpl. lia.
  - apply (proj2 (proj2 (fetch_pages_termination first_page_only
                           "com.example.app" [page_one] 5)) None).
    + simpl. repeat split; reflexivity.
    + repeat constructor.
    + exists (mkresponse 500 (Raise JSONDecodeError)).
      split; [reflexivity | left; simpl; lia].
    + simpl. lia.
Defined.

(** ** The order of the archive *)

Lemma str_ltb_total (s t : string) :
  s <> t -> str_ltb s t = false -> str_ltb t s = true.
Proof.
  unfold str_ltb. intros Hne H. rewrite String.compare_antisym.
  destruct (String.compare s t) eqn:E; simpl; try reflexivity; try discriminate.
  apply String.compare_eq_iff in E. contradiction.
Qed.

Lemma py_lt_total (x y : value) :
  x <> y -> py_lt x y = Ok false -> py_lt y x = Ok true.
Proof.
  destruct x as [|m|s], y as [|n|t]; simpl; try discriminate; intros Hne [= H].
  - f_equal. apply Z.ltb_lt. apply Z.ltb_ge in H.
    assert (m <> n) by congruence. lia.
  - f_equal. apply str_ltb_total; congruence.
Qed.

Lemma key_lt_true (a b : date * value) : key_lt a b = Ok true -> key_ge b a.
Proof.
  unfold key_lt, key_ge, id_ge.
  destruct (date_eqb (fst a) (fst b)) eqn:E.
  - apply date_eqb_eq in E.
    destruct (value_eq_dec (snd a) (snd b)); [discriminate|].
    intros H. right. auto.
  - intros [= H]. now left.
Qed.

Lemma key_lt_false (a b : date * value) : key_lt a b = Ok false -> key_ge a b.
Proof.
  unfold key_lt, key_ge, id_ge.
  destruct (date_eqb (fst a) (fst b)) eqn:E.
  - apply date_eqb_eq in E.
    destruct (value_eq_dec (snd a) (snd b)) as [Hi|Hi]; [auto|].
    intros H. right. split; [exact E|]. right. now apply py_lt_total.
  - intros [= H]. left. now apply date_trichotomy.
Qed.

Section SortingFacts.
Variable A : Type.
Local Abbreviation keyed := ((date * value) * A)%type.

Lemma insert_desc_HdRel (x z : keyed) (l r : list keyed) :
  insert_desc x l = Ok r ->
  keyed_ge z x -> HdRel keyed_ge z l -> HdRel keyed_ge z r.
Proof.
  destruct l as [|y t]; simpl.
  - intros [= <-] Hzx _. now constructor.
  - destruct (key_lt (fst x) (fst y)) as [[|]|e]; simpl; try discriminate.
    + destruct (insert_desc x t) as [r'|e]; simpl; [|discriminate].
      intros [= <-] _ Hz. inversion Hz; subst. now constructor.
    + intros [= <-] Hzx _. now constructor.
Qed.

Lemma insert_desc_Sorted (x : keyed) (l : list keyed) : forall r,
  insert_desc x l = Ok r -> Sorted keyed_ge l -> Sorted keyed_ge r.
Proof.
  induction l as [|y t IH]; simpl; intros r.
  - intros [= <-] _. repeat constructor.
  - destruct (key_lt (fst x) (fst y)) as [[|]|e] eqn:Hk; simpl; try discriminate.
    + destruct (insert_desc x t) as [r'|e] eqn:Hi; simpl; [|discriminate].
      intros [= <-] Hs. inversion Hs as [|? ? Hst Hhd]; subst.
      constructor; [now apply IH|].
      eapply insert_desc_HdRel; [exact Hi| |exact Hhd].
      now apply key_lt_true.
    + intros [= <-] Hs. constructor; [exact Hs|].
      constructor. now apply key_lt_false.
Qed.

Lemma insert_desc_Permutation (x : keyed) (l : list keyed) : forall r,
  insert_desc x l = Ok r -> Permutation (x :: l) r.
Proof.
  induction l as [|y t IH]; simpl; intros r.
  - intros [= <-]. apply Permutation_refl.
  - destruct (key_lt (fst x) (fst y)) as [[|]|e]; simpl; try discriminate.
    + destruct (insert_desc x t) as [r'|e]; simpl; [|discriminate].
      intros [= <-]. rewrite perm_swap. apply perm_skip. now apply IH.
    + intros [= <-]. apply Permutation_refl.
Qed.

Lemma sort_desc_Sorted (l : list keyed) : forall r,
  sort_desc l = Ok r -> Sorted keyed_ge r.
Proof.
  induction l as [|x t IH]; simpl; intros r.
  - intros [= <-]. constructor.
  - destruct (sort_desc t) as [s|e]; simpl; [|discriminate].
    intros H. eapply insert_desc_Sorted; [exact H|]. now apply IH.
Qed.

Lemma sort_desc_Permutation (l : list keyed) : forall r,
  sort_desc l = Ok r -> Permutation l r.
Proof.
  induction l as [|x t IH]; simpl; intros r.
  - intros [= <-]. constructor.
  - destruct (sort_desc t) as [s|e]; simpl; [|discriminate].
    intros H. apply insert_desc_Permutation in H.
    rewrite <- H. apply perm_skip. now apply IH.
Qed.

Lemma key_lt_str (x y : keyed) :
  str_key x -> str_key y -> exists b, key_lt (fst x) (fst y) = Ok b.
Proof.
  intros [s Hs] [t Ht]. unfold key_lt. rewrite Hs, Ht.
  destruct (date_eqb _ _); [|eauto].
  destruct (value_eq_dec _ _); simpl; eauto.
Qed.

Lemma insert_desc_total (x : keyed) (l : list keyed) :
  str_key x -> Forall str_key l -> exists r, insert_desc x l = Ok r.
Proof.
  intros Hx. induction 1 as [|y t Hy _ IH]; simpl; [eauto|].
  destruct (key_lt_str Hx Hy) as [[|] ->]; simpl; [|eauto].
  destruct IH as [r ->]. simpl. eauto.
Qed.

Lemma sort_desc_total (l : list keyed) :
  Forall str_key l -> exists r, sort_desc l = Ok r.
Proof.
  induction 1 as [|x t Hx Ht IH]; simpl; [eauto|].
  destruct IH as [s Hs]. rewrite Hs. simpl.
  apply insert_desc_total; [exact Hx|].
  apply sort_desc_Permutation in Hs.
  eapply Permutation_Forall; eassumption.
Qed.
End SortingFacts.

Lemma map_result_with_key (l : list (pydict value)) : forall keyed,
  map_result with_key l = Ok keyed ->
  map snd keyed = l /\ Forall (fun kx => sort_key (snd kx) = Ok (fst kx)) keyed.
Proof.
  induction l as [|x t IH]; simpl; intros keyed.
  - intros [= <-]. split; [reflexivity | constructor].
  - unfold with_key at 1.
    destruct (sort_key x) as [k|e] eqn:Hk; simpl; [|discriminate].
    destruct (map_result with_key t) as [ks|e]; simpl; [|discriminate].
    intros [= <-]. destruct (IH ks eq_refl) as [Hm Hf]. simpl.
    split; [now rewrite Hm | now constructor].
Qed.

Lemma map_result_with_key_total (l : list (pydict value)) :
  Forall has_str_id l ->
  exists keyed, map_result with_key l = Ok keyed
                /\ Forall (@str_key (pydict value)) keyed.
Proof.
  induction 1 as [|x t (d & s & Hx) _ (ks & Hks & Hf)]; simpl.
  - exists []. split; [reflexivity | constructor].
  - unfold with_key at 1. rewrite Hx. simpl. rewrite Hks. simpl.
    eexists. split; [reflexivity|]. constructor; [|exact Hf].
    now exists s.
Qed.

Lemma Sorted_keyed_desc (s : list ((date * value) * pydict value)) :
  Forall (fun kx => sort_key (snd kx) = Ok (fst kx)) s ->
  Sorted (@keyed_ge (pydict value)) s -> Sorted desc (map snd s).
Proof.
  intros Hf Hs. induction Hs as [|x t Hst IH Hhd]; simpl; [constructor|].
  inversion Hf as [|? ? Hx Ht]; subst.
  constructor; [now apply IH|].
  destruct Hhd as [|y t' Hxy]; simpl; constructor.
  inversion Ht; subst. exists (fst x), (fst y). auto.
Qed.

Lemma sorted_reviews_Sorted (l l' : list (pydict value)) :
  sorted_reviews l = Ok l' -> Sorted desc l' /\ Permutation l l'.
Proof.
  unfold sorted_reviews.
  destruct (map_result with_key l) as [keyed|e] eqn:Hk; simpl; [|discriminate].
  destruct (sort_desc keyed) as [s|e] eqn:Hs; simpl; [|discriminate].
  intros [= <-]. apply map_result_with_key in Hk as [<- Hf].
  pose proof (sort_desc_Permutation _ Hs) as Hp.
  split.
  - apply Sorted_keyed_desc; [|now apply sort_desc_Sorted with (l := keyed)].
    eapply Permutation_Forall; eassumption.
  - now apply Permutation_map.
Qed.

Lemma sorted_reviews_total (l : list (pydict value)) :
  Forall has_str_id l -> exists l', sorted_reviews l = Ok l'.
Proof.
  intros H. unfold sorted_reviews.
  destruct (map_result_with_key_total H) as (keyed & -> & Hf). simpl.
  destruct (sort_desc_total Hf) as [s ->]. simpl. eauto.
Qed.

Lemma Sorted_adjacent (A : Type) (R : A -> A -> Prop) (l : list A) :
  Sorted R l ->
  forall i a b, nth_error l i = Some a -> nth_error l (S i) = Some b -> R a b.
Proof.
  induction 1 as [|x t Hs IH Hhd]; intros i a b Ha Hb.
  - destruct i; discriminate.
  - destruct i as [|i]; simpl in *.
    + injection Ha as <-. destruct Hhd as [|y t' Hxy]; [discriminate|].
      simpl in Hb. now injection Hb as <-.
    + now apply (IH i).
Qed.

Lemma str_compare_refl (s : string) : String.compare s s = Eq.
Proof.
  pose proof (String.compare_antisym s s) as H.
  destruct (String.compare s s); trivial; discriminate.
Qed.

Lemma key_ge_str (d1 d2 : date) (s1 s2 : string) :
  key_ge (d1, VStr s1) (d2, VStr s2)
  <-> date_lt d2 d1 \/ (d1 = d2 /\ String.compare s2 s1 <> Gt).
Proof.
  unfold key_ge, id_ge, str_ltb. simpl. rewrite date_ltb_lt.
  split; (intros [H|[-> H]]; [now left | right; split; [reflexivity|]]).
  - destruct H as [[= ->]|[= H]].
    + rewrite str_compare_refl. discriminate.
    + unfold str_ltb in H. destruct (String.compare s2 s1); congruence.
  - destruct (String.compare s2 s1) eqn:E.
    + left. f_equal. symmetry. now apply String.compare_eq_iff.
    + right. unfold str_ltb. now rewrite E.
    + contradiction.
Qed.

Lemma merge_and_persist_written {O : SetOrder} review_filename
    existing_reviews reviews st st' :
  merge_and_persist review_filename existing_reviews reviews st = (Ok tt, st') ->
  exists written,
    reviews_files st' review_filename = Some written
    /\ sorted_reviews (remove_duplicates (existing_reviews ++ reviews)) = Ok written.
Proof.
  unfold merge_and_persist.
  destruct (sorted_reviews _) as [written|e]; [|discriminate].
  intros [= <-]. exists written. simpl. unfold write.
  now rewrite String.eqb_refl.
Qed.

(** ** Zero-padded dates: chronological order is string order *)

Lemma is_digit_code (c : ascii) :
  is_digit c = true -> 48 <= code c <= 57 /\ digit c = Some (code c - 48).
Proof.
  unfold is_digit, digit, code.
  destruct (Z.leb_spec 48 (Z.of_N (N_of_ascii c)));
    destruct (Z.leb_spec (Z.of_N (N_of_ascii c)) 57); simpl;
    try discriminate.
  intros _. split; [lia | reflexivity].
Qed.

Lemma digit_not_dash (c : ascii) : is_digit c = true -> Ascii.eqb c dash = false.
Proof.
  intros H. destruct (Ascii.eqb_spec c dash) as [->|]; [discriminate | reflexivity].
Qed.

Lemma digit_not_space (c : ascii) : is_digit c = true -> Ascii.eqb c space = false.
Proof.
  intros H. destruct (Ascii.eqb_spec c space) as [->|]; [discriminate | reflexivity].
Qed.

Lemma small_cases (v : Z) :
  0 <= v <= 9 ->
  v = 0 \/ v = 1 \/ v = 2 \/ v = 3 \/ v = 4 \/ v = 5 \/ v = 6 \/ v = 7 \/ v = 8 \/ v = 9.
Proof. lia. Qed.

Lemma parse_month_padded (a b : ascii) (rest r : list ascii) (m : Z) :
  is_digit a = true -> is_digit b = true ->
  parse_month (a :: b :: rest) = Some (m, r) ->
  m = 10 * (code a - 48) + (code b - 48) /\ r = rest.
Proof.
  intros Ha Hb. unfold parse_month. rewrite (digit_not_dash _ Hb).
  destruct (is_digit_code _ Ha) as [Ra ->], (is_digit_code _ Hb) as [Rb ->].
  destruct (small_cases (v := code a - 48) ltac:(lia))
    as [E|[E|[E|[E|[E|[E|[E|[E|[E|E]]]]]]]]];
    rewrite E; try discriminate.
  - destruct (Z.leb_spec 1 (code b - 48)); [|discriminate].
    intros Heq. split; [|congruence].
    assert (m = code b - 48) by congruence. lia.
  - destruct (Z.leb_spec (code b - 48) 2); [|discriminate].
    intros Heq. split; [|congruence].
    assert (m = 10 + (code b - 48)) by congruence. lia.
Qed.

Lemma parse_day_padded (a b : ascii) (d : Z) :
  is_digit a = true -> is_digit b = true ->
  parse_day [a; b] = Some d ->
  d = 10 * (code a - 48) + (code b - 48).
Proof.
  intros Ha Hb. unfold parse_day. rewrite (digit_not_space _ Ha).
  destruct (is_digit_code _ Ha) as [Ra ->], (is_digit_code _ Hb) as [Rb ->].
  destruct (small_cases (v := code a - 48) ltac:(lia))
    as [E|[E|[E|[E|[E|[E|[E|[E|[E|E]]]]]]]]];
    rewrite E; try discriminate.
  - destruct (Z.leb_spec 1 (code b - 48)); [|discriminate].
    intros Heq. assert (d = code b - 48) by congruence. lia.
  - intros Heq. assert (d = 10 + (code b - 48)) by congruence. lia.
  - intros Heq. assert (d = 20 + (code b - 48)) by congruence. lia.
  - destruct (Z.leb_spec (code b - 48) 1); [|discriminate].
    intros Heq. assert (d = 30 + (code b - 48)) by congruence. lia.
Qed.

Lemma parse_year_padded (a b c d : ascii) (rest r : list ascii) (y : Z) :
  is_digit a = true -> is_digit b = true -> is_digit c = true -> is_digit d = true ->
  parse_year (a :: b :: c :: d :: rest) = Some (y, r) ->
  y = 1000 * (code a - 48) + 100 * (code b - 48) + 10 * (code c - 48) + (code d - 48)
  /\ r = rest.
Proof.
  intros Ha Hb Hc Hd. unfold parse_year.
  destruct (is_digit_code _ Ha) as [_ ->], (is_digit_code _ Hb) as [_ ->],
           (is_digit_code _ Hc) as [_ ->], (is_digit_code _ Hd) as [_ ->].
  intros Heq. split; congruence.
Qed.

(** The numbers a zero-padded date string parses to. *)
Lemma strptime_ymd_padded (y1 y2 y3 y4 m1 m2 d1 d2 : ascii) (dt : date) :
  is_digit y1 = true -> is_digit y2 = true -> is_digit y3 = true ->
  is_digit y4 = true -> is_digit m1 = true -> is_digit m2 = true ->
  is_digit d1 = true -> is_digit d2 = true ->
  strptime_ymd
    (string_of_list_ascii [y1; y2; y3; y4; dash; m1; m2; dash; d1; d2]) = Ok dt ->
  year dt = 1000 * (code y1 - 48) + 100 * (code y2 - 48)
            + 10 * (code y3 - 48) + (code y4 - 48)
  /\ month dt = 10 * (code m1 - 48) + (code m2 - 48)
  /\ day dt = 10 * (code d1 - 48) + (code d2 - 48).
Proof.
  intros Hy1 Hy2 Hy3 Hy4 Hm1 Hm2 Hd1 Hd2.
  unfold strptime_ymd. rewrite list_ascii_of_string_of_list_ascii.
  destruct (parse_year _) as [[y r1]|] eqn:Ey; [|discriminate].
  apply parse_year_padded in Ey as [-> ->]; trivial.
  cbn [expect_dash]. rewrite Ascii.eqb_refl.
  destruct (parse_month _) as [[m r3]|] eqn:Em; [|discriminate].
  apply parse_month_padded in Em as [-> ->]; trivial.
  cbn [expect_dash]. rewrite Ascii.eqb_refl.
  destruct (parse_day _) as [d|] eqn:Ed; [|discriminate].
  apply parse_day_padded in Ed as ->; trivial.
  destruct (valid_date _); [|discriminate].
  intros [= <-]. simpl. auto.
Qed.

Lemma iso_form_chars (s : string) :
  iso_form s = true ->
  exists y1 y2 y3 y4 m1 m2 d1 d2,
    s = string_of_list_ascii [y1; y2; y3; y4; dash; m1; m2; dash; d1; d2]
    /\ (is_digit y1 = true /\ is_digit y2 = true /\ is_digit y3 = true
        /\ is_digit y4 = true)
    /\ (is_digit m1 = true /\ is_digit m2 = true)
    /\ (is_digit d1 = true /\ is_digit d2 = true).
Proof.
  unfold iso_form.
  assert (Es : s = string_of_list_ascii (list_ascii_of_string s))
    by (symmetry; apply string_of_list_ascii_of_string).
  revert Es. generalize (list_ascii_of_string s). intros l ->.
  destruct l
    as [|y1 [|y2 [|y3 [|y4 [|h1 [|m1 [|m2 [|h2 [|d1 [|d2 [|? ?]]]]]]]]]]];
    try discriminate.
  rewrite !andb_true_iff.
  intros [[[[[[[[[Hy1 Hy2] Hy3] Hy4] Hh1] Hm1] Hm2] Hh2] Hd1] Hd2].
  apply Ascii.eqb_eq in Hh1, Hh2. subst h1 h2.
  exists y1, y2, y3, y4, m1, m2, d1, d2. tauto.
Qed.

(** On zero-padded dates the order of the parsed dates is the order of
    the strings. *)
Lemma padded_dates_lexicographic (s t : string) (ds dt : date) :
  iso_form s = true -> iso_form t = true ->
  strptime_ymd s = Ok ds -> strptime_ymd t = Ok dt ->
  date_ltb ds dt = str_ltb s t.
Proof.
  intros Hs Ht Ps Pt.
  apply iso_form_chars in Hs
    as (a1 & a2 & a3 & a4 & a5 & a6 & a7 & a8 & -> & (?&?&?&?) & (?&?) & (?&?)).
  apply iso_form_chars in Ht
    as (b1 & b2 & b3 & b4 & b5 & b6 & b7 & b8 & -> & (?&?&?&?) & (?&?) & (?&?)).
  apply strptime_ymd_padded in Ps as (Ys & Ms & Ds); trivial.
  apply strptime_ymd_padded in Pt as (Yt & Mt & Dt); trivial.
  apply eq_true_iff_eq. rewrite date_ltb_lt. unfold date_lt.
  rewrite Ys, Ms, Ds, Yt, Mt, Dt.
  repeat match goal with
         | H : is_digit ?c = true |- _ => apply is_digit_code in H as [? _]
         end.
  unfold str_ltb, code in *. cbn [string_of_list_ascii String.compare].
  unfold Ascii.compare.
  change (N_of_ascii dash ?= N_of_ascii dash)%N with Eq. cbv iota.
  repeat match goal with
         | |- context [(?x ?= ?y)%N] => destruct (N.compare_spec x y)
         end;
    (split; [intros; try reflexivity; exfalso; lia | intros; try discriminate; lia]).
Qed.

(** C6: the sequence that lines 97-100 write to the archive is sorted
    descending by (date, id): each element and its successor have sort
    keys [ka >= kb], where a later date is greater (on zero-padded date
    strings that is the order of the strings) and, on equal dates,
    string ids compare lexicographically ("9" stands before "10"); the
    write takes place whenever every record has a date that parses and a
    string id. *)
Theorem persisted_archive_sorted {O : SetOrder} (review_filename : string)
    (existing_reviews reviews : list (pydict value)) (st : storage) :
  (forall st',
      merge_and_persist review_filename existing_reviews reviews st = (Ok tt, st') ->
      exists written,
        reviews_files st' review_filename = Some written
        /\ Permutation (remove_duplicates (existing_reviews ++ reviews)) written
        /\ forall i a b,
            nth_error written i = Some a ->
            nth_error written (S i) = Some b ->
            desc a b)
  /\ (Forall has_str_id (existing_reviews ++ reviews) ->
      exists st',
        merge_and_persist review_filename existing_reviews reviews st = (Ok tt, st'))
  /\ (forall d1 d2 s1 s2,
        key_ge (d1, VStr s1) (d2, VStr s2)
        <-> date_lt d2 d1 \/ (d1 = d2 /\ String.compare s2 s1 <> Gt))
  /\ (forall d, key_ge (d, VStr "9") (d, VStr "10")
                /\ ~ key_ge (d, VStr "10") (d, VStr "9"))
  /\ (forall s t ds dt,
        iso_form s = true -> iso_form t = true ->
        strptime (VStr s) = Ok ds -> strptime (VStr t) = Ok dt ->
        date_ltb ds dt = str_ltb s t).
Proof.
  split; [|split; [|split; [|split]]]; [| | | |apply padded_dates_lexicographic].
  - intros st' H. apply merge_and_persist_written in H as (written & Hw & Hs).
    apply sorted_reviews_Sorted in Hs as [Hs Hp].
    exists written. split; [exact Hw|]. split; [exact Hp|].
    now apply Sorted_adjacent.
  - intros H. unfold merge_and_persist.
    destruct (sorted_reviews_total (l := remove_duplicates (existing_reviews ++ reviews)))
      as [l' ->]; [|eauto].
    rewrite Forall_forall in *. intros x Hx. apply H.
    now apply remove_duplicates_In.
  - apply key_ge_str.
  - intros d. rewrite !key_ge_str. split.
    + right. split; [reflexivity | discriminate].
    + intros [H|[_ H]]; [unfold date_lt in H; lia | now apply H].
Qed.

Lemma persisted_archive_sorted_witness :
  exists written,
    reviews_files
      (snd (merge_and_persist (O := nodup_order)
              (reviews_filename "com.example.app") [] unsorted_batch no_files))
      (reviews_filename "com.example.app") = Some written
    /\ map (dict_get "id") written
       = [Some (VStr "9"); Some (VStr "10"); Some (VStr "r1")].
Proof.
  destruct (proj1 (persisted_archive_sorted (O := nodup_order)
                     (reviews_filename "com.example.app") [] unsorted_batch
                     no_files)
              (snd (merge_and_persist (O := nodup_order)
                      (reviews_filename "com.example.app") [] unsorted_batch
                      no_files)))
    as (written & Hw & _).
  - reflexivity.
  - exists written. split; [exact Hw|].
    vm_compute in Hw. injection Hw as <-. reflexivity.
Defined.

(** ** A second run of lines 97-100 *)

Lemma str_compare_trans (s t u : string) :
  String.compare s t = Lt -> String.compare t u = Lt -> String.compare s u = Lt.
Proof.
  intros H1 H2. apply String_as_OT.cmp_lt in H1, H2. apply String_as_OT.cmp_lt.
  eapply String_as_OT.lt_trans; eassumption.
Qed.

Lemma str_gt_trans (a b c : pydict value) : str_gt a b -> str_gt b c -> str_gt a c.
Proof.
  intros (da & db & sa & sb & Ha & Hb & H1) (db' & dc & sb' & sc & Hb' & Hc & H2).
  rewrite Hb in Hb'. injection Hb' as <- <-.
  exists da, dc, sa, sc. split; [exact Ha|]. split; [exact Hc|].
  destruct H1 as [H1|[E1 H1]], H2 as [H2|[E2 H2]]; subst;
    try (left; unfold date_lt in *; lia).
  right. split; [reflexivity|]. eapply str_compare_trans; eassumption.
Qed.

Lemma str_gt_asym (a b : pydict value) : str_gt a b -> str_gt b a -> False.
Proof.
  intros (da & db & sa & sb & Ha & Hb & H1) (db' & da' & sb' & sa' & Hb' & Ha' & H2).
  rewrite Hb in Hb'. injection Hb' as <- <-.
  rewrite Ha in Ha'. injection Ha' as <- <-.
  destruct H1 as [H1|[E1 H1]], H2 as [H2|[E2 H2]]; subst;
    try (unfold date_lt in *; lia).
  rewrite String.compare_antisym, H1 in H2. discriminate.
Qed.

Lemma desc_str_gt (a b : pydict value) :
  desc a b -> has_str_id a -> has_str_id b -> sort_key a <> sort_key b ->
  str_gt a b.
Proof.
  intros (ka & kb & Ha & Hb & Hge) (da & sa & Ha') (db & sb & Hb') Hne.
  rewrite Ha in Ha'. injection Ha' as ->. rewrite Hb in Hb'. injection Hb' as ->.
  exists da, db, sa, sb. split; [exact Ha|]. split; [exact Hb|].
  apply key_ge_str in Hge as [H|[-> H]]; [now left|right].
  split; [reflexivity|].
  destruct (String.compare sb sa) eqn:E; [|reflexivity|contradiction].
  apply String.compare_eq_iff in E. subst. congruence.
Qed.

Lemma Sorted_desc_str_gt (l : list (pydict value)) :
  Sorted desc l -> NoDup l -> Forall has_str_id l ->
  (forall a b, In a l -> In b l -> sort_key a = sort_key b -> a = b) ->
  StronglySorted str_gt l.
Proof.
  intros Hs Hn Hf Hinj. apply Sorted_StronglySorted.
  { intros a b c. apply str_gt_trans. }
  induction Hs as [|a t Hs IH Hhd]; [constructor|].
  inversion Hn as [|? ? Hna Hnt]; subst. inversion Hf as [|? ? Hfa Hft]; subst.
  constructor.
  - apply IH; trivial. intros x y Hx Hy. apply Hinj; now right.
  - destruct Hhd as [|b t' Hab]; constructor.
    inversion Hft; subst. apply desc_str_gt; trivial.
    intros E. apply Hna. left. symmetry. apply Hinj; simpl; auto.
Qed.

Lemma StronglySorted_unique (A : Type) (R : A -> A -> Prop) :
  (forall x y, R x y -> R y x -> False) ->
  forall l1 l2 : list A,
    StronglySorted R l1 -> StronglySorted R l2 -> Permutation l1 l2 -> l1 = l2.
Proof.
  intros Hasym. induction l1 as [|a t1 IH]; intros l2 H1 H2 Hp.
  - apply Permutation_nil in Hp. now subst.
  - destruct l2 as [|b t2].
    { apply Permutation_sym, Permutation_nil in Hp. discriminate. }
    inversion H1 as [|? ? Hs1 Hf1]; subst. inversion H2 as [|? ? Hs2 Hf2]; subst.
    assert (a = b) as <-.
    { assert (Ha : In a (b :: t2)) by (eapply Permutation_in; [exact Hp | now left]).
      assert (Hb : In b (a :: t1))
        by (eapply Permutation_in; [apply Permutation_sym; exact Hp | now left]).
      destruct Ha as [->|Ha]; [reflexivity|].
      destruct Hb as [->|Hb]; [reflexivity|].
      rewrite Forall_forall in Hf1, Hf2.
      exfalso. apply (Hasym a b); auto. }
    f_equal. apply IH; trivial. eapply Permutation_cons_inv; exact Hp.
Qed.

(** When the service returns the same reviews, each under a key of its
    own, a second pass of lines 97-100 over the archive the first pass
    wrote and a bounded fetch writes that archive again. *)
Lemma merge_and_persist_twice {O1 O2 : SetOrder} (review_filename : string)
    (reviews reviews' : list (pydict value)) (st st1 : storage) :
  Forall has_str_id reviews ->
  (forall a b, In a reviews -> In b reviews -> sort_key a = sort_key b -> a = b) ->
  incl reviews' reviews ->
  merge_and_persist (O := O1) review_filename [] reviews st = (Ok tt, st1) ->
  exists st2,
    merge_and_persist (O := O2) review_filename
      (load_reviews st1 review_filename) reviews' st1 = (Ok tt, st2)
    /\ reviews_files st2 review_filename = reviews_files st1 review_filename.
Proof.
  intros Hf Hinj Hincl H1.
  apply merge_and_persist_written in H1 as (A & HA & Hs1).
  simpl in Hs1. apply sorted_reviews_Sorted in Hs1 as [HsA HpA].
  assert (HinA : forall x, In x A <-> In x reviews).
  { intros x. rewrite <- (remove_duplicates_In (O := O1) reviews x).
    split; apply Permutation_in; [apply Permutation_sym|]; exact HpA. }
  assert (HnA : NoDup A).
  { eapply Permutation_NoDup; [exact HpA | apply remove_duplicates_NoDup]. }
  unfold load_reviews. rewrite HA.
  assert (Hf2 : Forall has_str_id (remove_duplicates (O := O2) (A ++ reviews'))).
  { rewrite Forall_forall in *. intros x Hx.
    apply remove_duplicates_In, in_app_or in Hx as [Hx|Hx]; apply Hf;
      [now apply HinA | now apply Hincl]. }
  destruct (sorted_reviews_total Hf2) as [S HS].
  unfold merge_and_persist. rewrite HS.
  eexists. split; [reflexivity|].
  simpl. unfold write. rewrite String.eqb_refl. f_equal.
  apply sorted_reviews_Sorted in HS as [HsS HpS].
  assert (HpAS : Permutation A S).
  { eapply Permutation_trans; [|exact HpS].
    apply NoDup_Permutation; [exact HnA | apply remove_duplicates_NoDup|].
    intros x. rewrite remove_duplicates_In, in_app_iff, HinA.
    split; [now left | intros [H|H]; [exact H | now apply Hincl]]. }
  symmetry. apply (StronglySorted_unique str_gt_asym); [| |exact HpAS].
  - apply Sorted_desc_str_gt; trivial.
    + rewrite Forall_forall in *. intros x Hx. now apply Hf, HinA.
    + intros a b Ha Hb. apply Hinj; now apply HinA.
  - apply Sorted_desc_str_gt; trivial.
    + eapply Permutation_NoDup; eassumption.
    + rewrite Forall_forall in *. intros x Hx. apply Hf, HinA.
      eapply Permutation_in; [apply Permutation_sym; exact HpAS | exact Hx].
    + intros a b Ha Hb. apply Hinj; apply HinA;
        (eapply Permutation_in; [apply Permutation_sym; exact HpAS | assumption]).
Qed.

(** ** Records whose date does not parse *)

(** With a cutoff, a fetched review whose date does not parse stops
    [save_app_reviews] with the parser's exception. *)
Lemma save_app_reviews_cutoff_raises {O : SetOrder} fuel env app_id st
    upto before r after next e :
  load_reviews st (reviews_filename app_id) <> [] ->
  minus_days 2 (today env) = Ok upto ->
  get_reviews (net env) app_id None = Ok (Some (JPage (before ++ r :: after) next)) ->
  Forall parses before ->
  strptime (rv_date r) = Raise e ->
  save_app_reviews (S fuel) env app_id st = Some (Raise e, st).
Proof.
  intros Hl Hd Hg Hb Hr. unfold save_app_reviews, fetch_for_sync.
  rewrite Hd. destruct (load_reviews st (reviews_filename app_id)); [contradiction|].
  simpl length. simpl Nat.ltb.
  rewrite extract_all_reviews_raise with (e := e); [reflexivity|].
  simpl. rewrite Hg, cutoff_filter_raises with (e := e); trivial.
Qed.

(** C9 (code bug): an archive that holds a record dated "02/01/2024", and
    a first sync that fetches such a review.  The sort of line 98 would
    raise the parser's [ValueError] on either, but both runs stop on the
    [TypeError] of line 96 before reaching it. *)
Theorem malformed_date_type_error {O : SetOrder} :
  sorted_reviews [malformed_record] = Raise ValueError
  /\ save_app_reviews 3 quiet_env "com.example.app" malformed_stored
     = Some (Raise TypeError, malformed_stored)
  /\ sorted_reviews [flatten_review (sample_review "r7" "02/01/2024" [])]
     = Raise ValueError
  /\ save_app_reviews 3 malformed_env "com.example.app" no_files
     = Some (Raise TypeError, no_files).
Proof.
  split; [reflexivity|]. split; [|split; [reflexivity|]].
  - apply save_app_reviews_after_fetch with
      (upto := mkdate 2024 1 3) (reviews := remove_duplicates (map flatten_review []));
      [reflexivity|].
    unfold fetch_for_sync.
    change (load_reviews malformed_stored (reviews_filename "com.example.app"))
      with [malformed_record].
    simpl Nat.ltb. cbv iota.
    now apply extract_all_reviews_of_fetch with (all := []).
  - apply save_app_reviews_after_fetch with
      (upto := mkdate 2024 1 3)
      (reviews := remove_duplicates
                    (map flatten_review [sample_review "r7" "02/01/2024" []]));
      [reflexivity|].
    unfold fetch_for_sync.
    change (load_reviews no_files (reviews_filename "com.example.app"))
      with (@nil (pydict value)).
    simpl Nat.ltb. cbv iota.
    now apply extract_all_reviews_of_fetch
      with (all := [sample_review "r7" "02/01/2024" []]).
Qed.

(** * Further properties *)

(** ** Successful responses *)

Lemma json_if_200_ok (B : Type) (r : response B) :
  status_code r = 200 -> json_if_200 r = (j <- json r ;; Ok (Some j)).
Proof. intros H. unfold json_if_200. now rewrite H. Qed.

(** X1: on a response with status 200 each of the four fetch operations
    returns the decoded body, and lets the exception of [response.json()]
    through when the body does not decode. *)
Theorem fetch_operations_success (net : network) (app_id : string)
    (tok : option string) :
  (forall r,
      requests_get_reviews net (reviews_url app_id) (reviews_params tok) = Ok r ->
      status_code r = 200 ->
      get_reviews net app_id tok = (j <- json r ;; Ok (Some j)))
  /\ (forall r,
      requests_get net (appinfo_url app_id) = Ok r ->
      status_code r = 200 ->
      get_appinfo net app_id = (j <- json r ;; Ok (Some j)))
  /\ (forall r,
      requests_get net (permissions_url app_id) = Ok r ->
      status_code r = 200 ->
      get_permissions net app_id = (j <- json r ;; Ok (Some j)))
  /\ (forall r,
      requests_get net (datasafety_url app_id) = Ok r ->
      status_code r = 200 ->
      get_datasafety net app_id = (j <- json r ;; Ok (Some j))).
Proof.
  unfold get_reviews, get_appinfo, get_permissions, get_datasafety.
  repeat split; intros r Hr Hs; rewrite Hr; simpl; now apply json_if_200_ok.
Qed.

Lemma fetch_operations_success_witness :
  get_appinfo (single_page []) "com.example.app" = Ok (Some "{}")
  /\ get_reviews (single_page []) "com.example.app" None = Ok (Some (JPage [] None)).
Proof.
  split.
  - apply (proj1 (proj2 (fetch_operations_success (single_page [])
                           "com.example.app" None))
             (mkresponse 200 (Ok "{}"))); reflexivity.
  - apply (proj1 (fetch_operations_success (single_page [])
                    "com.example.app" None)
             (mkresponse 200 (Ok (JPage [] None)))); reflexivity.
Defined.

(** ** The three overwrite-only operations *)

Lemma save_payload_frame (kind : string) (fetched : result (option string))
    (app_id : string) (st : storage) :
  let st' := snd (save_payload kind fetched app_id st) in
  reviews_files st' = reviews_files st
  /\ criterias_files st' = criterias_files st
  /\ forall name,
      name <> payload_filename kind app_id ->
      payload_files st' name = payload_files st name.
Proof.
  unfold save_payload. destruct fetched as [data|e]; simpl; auto.
  repeat split. intros name Hne. unfold write.
  destruct (String.eqb_spec name (payload_filename kind app_id));
    [contradiction | reflexivity].
Qed.




(** ** File names *)

Lemma append_inj_l (p x y : string) : (p ++ x)%string = (p ++ y)%string -> x = y.
Proof.
  induction p as [|c p IH]; simpl; [trivial|]. intros [= H]. now apply IH.
Qed.

Lemma length_append (x y : string) :
  String.length (x ++ y) = (String.length x + String.length y)%nat.
Proof. induction x as [|c x IH]; simpl; [reflexivity | now rewrite IH]. Qed.

Lemma append_inj_r (s x y : string) : (x ++ s)%string = (y ++ s)%string -> x = y.
Proof.
  revert y. induction x as [|c x IH]; intros [|d y]; simpl; intros H.
  - reflexivity.
  - apply (f_equal String.length) in H. simpl in H. rewrite length_append in H. lia.
  - apply (f_equal String.length) in H. simpl in H. rewrite length_append in H. lia.
  - injection H as -> H. f_equal. now apply IH.
Qed.

Lemma payload_filename_inj (kind a b : string) :
  payload_filename kind a = payload_filename kind b -> a = b.
Proof.
  unfold payload_filename. intros H.
  apply append_inj_l, append_inj_l, append_inj_l in H.
  now apply append_inj_r in H.
Qed.

Lemma reviews_filename_inj (a b : string) :
  reviews_filename a = reviews_filename b -> a = b.
Proof.
  unfold reviews_filename. intros H.
  apply append_inj_l, append_inj_l in H. now apply append_inj_r in H.
Qed.

Lemma criterias_filename_inj (a b : string) :
  criterias_filename a = criterias_filename b -> a = b.
Proof.
  unfold criterias_filename. intros H.
  apply append_inj_l, append_inj_l in H. now apply append_inj_r in H.
Qed.

(** X3: the files of two different apps never coincide, and neither do
    the five files of one or two apps: each file name determines its app
    identifier, and names of different kinds differ. *)
Theorem filenames_distinct (a b : string) :
  (reviews_filename a = reviews_filename b -> a = b)
  /\ (criterias_filename a = criterias_filename b -> a = b)
  /\ (forall kind, payload_filename kind a = payload_filename kind b -> a = b)
  /\ reviews_filename a <> criterias_filename b
  /\ reviews_filename a <> payload_filename "AppInfo" b
  /\ reviews_filename a <> payload_filename "Permissions" b
  /\ reviews_filename a <> payload_filename "DataSafety" b
  /\ criterias_filename a <> payload_filename "AppInfo" b
  /\ criterias_filename a <> payload_filename "Permissions" b
  /\ criterias_filename a <> payload_filename "DataSafety" b
  /\ payload_filename "AppInfo" a <> payload_filename "Permissions" b
  /\ payload_filename "AppInfo" a <> payload_filename "DataSafety" b
  /\ payload_filename "Permissions" a <> payload_filename "DataSafety" b.
Proof.
  repeat match goal with |- _ /\ _ => split end;
    try (unfold reviews_filename, criterias_filename, payload_filename;
         simpl; discriminate).
  - apply reviews_filename_inj.
  - apply criterias_filename_inj.
  - intros kind. apply payload_filename_inj.
Qed.

Lemma filenames_distinct_witness :
  "com.example.app" = "com.example.app".
Proof.
  apply (proj1 (filenames_distinct "com.example.app" "com.example.app")).
  reflexivity.
Defined.

(** ** The batch *)

Lemma process_app_raises {O : SetOrder} fuel env app_id st r st' :
  process_app fuel env app_id st = Some (r, st') ->
  (exists e, r = Raise e)
  /\ reviews_files st' = reviews_files st
  /\ criterias_files st' = criterias_files st
  /\ forall name,
      name <> payload_filename "AppInfo" app_id ->
      payload_files st' name = payload_files st name.
Proof.
  unfold process_app.
  pose proof (save_payload_frame "AppInfo" (get_appinfo (net env) app_id) app_id st)
    as Hframe.
  fold (save_app_info env app_id st) in Hframe.
  destruct (save_app_info env app_id st) as [[[]|e] st1]; simpl in Hframe.
  - destruct (save_app_reviews fuel env app_id st1) as [[r2 st2]|] eqn:Hr;
      [|discriminate].
    apply save_app_reviews_keeps_storage in Hr as [-> [e ->]].
    intros [= <- <-]. split; [eauto | exact Hframe].
  - intros [= <- <-]. split; [eauto | exact Hframe].
Qed.

Lemma main_first_app {O : SetOrder} fuel env app_id rest st :
  main fuel env (app_id :: rest) st = process_app fuel env app_id st.
Proof.
  simpl. destruct (process_app fuel env app_id st) as [[r st']|] eqn:H;
    [|reflexivity].
  apply process_app_raises in H as [[e ->] _]. reflexivity.
Qed.

(** X4: the batch never gets past its first app.  On a non-empty app
    list every run that ends has ended with an exception; what it did is
    what processing the first app alone does, whatever follows in the
    list; and the only file it can have changed is the first app's
    [AppInfo] file: no reviews, criteria, permissions or data-safety file
    is written. *)
Theorem main_stops_at_first_app {O : SetOrder} (fuel : nat) (env : environment)
    (app_id : string) (rest : list string) (st : storage) :
  main fuel env (app_id :: rest) st = main fuel env [app_id] st
  /\ forall r st',
      main fuel env (app_id :: rest) st = Some (r, st') ->
      (exists e, r = Raise e)
      /\ reviews_files st' = reviews_files st
      /\ criterias_files st' = criterias_files st
      /\ forall name,
          name <> payload_filename "AppInfo" app_id ->
          payload_files st' name = payload_files st name.
Proof.
  split.
  - now rewrite !main_first_app.
  - intros r st'. rewrite main_first_app. apply process_app_raises.
Qed.

Lemma main_stops_at_first_app_witness :
  let st1 :=
    write_payload (payload_filename "AppInfo" "com.example.app") (Some "{}")
                  no_files in
  main (O := nodup_order) 3 first_run_env
       ["com.example.app"; "org.example.other"] no_files
  = Some (Raise TypeError, st1)
  /\ payload_files st1 (payload_filename "AppInfo" "org.example.other") = None
  /\ payload_files st1 (payload_filename "Permissions" "com.example.app") = None.
Proof.
  intros st1.
  assert (H : main (O := nodup_order) 3 first_run_env
                   ["com.example.app"; "org.example.other"] no_files
              = Some (Raise TypeError, st1)) by reflexivity.
  split; [exact H|].
  destruct (proj2 (main_stops_at_first_app (O := nodup_order) 3 first_run_env
                     "com.example.app" ["org.example.other"] no_files)
              _ _ H) as (_ & _ & _ & Hp).
  split; apply Hp; discriminate.
Defined.

(** ** Deduplication, again *)

Lemma remove_duplicates_perm_of {O1 O2 : SetOrder} (l l' : list (pydict value)) :
  same_records l l' ->
  Permutation (remove_duplicates (O := O1) l) (remove_duplicates (O := O2) l').
Proof.
  intros H. apply NoDup_Permutation; try apply remove_duplicates_NoDup.
  intros d. rewrite !remove_duplicates_In. apply H.
Qed.

(** X5: deduplicating a list that has no two equal records only
    reorders it, so deduplicating twice changes nothing but the order:
    the second pass returns the records of the first, each once. *)
Theorem remove_duplicates_idempotent {O1 O2 : SetOrder}
    (reviews : list (pydict value)) :
  (NoDup reviews -> Permutation (remove_duplicates (O := O1) reviews) reviews)
  /\ Permutation
       (remove_duplicates (O := O2) (remove_duplicates (O := O1) reviews))
       (remove_duplicates (O := O1) reviews)
  /\ remove_duplicates (O := O1) [] = [].
Proof.
  split; [|split].
  - intros Hn. apply NoDup_Permutation; trivial.
    + apply remove_duplicates_NoDup.
    + apply remove_duplicates_In.
  - apply NoDup_Permutation; try apply remove_duplicates_NoDup.
    intros d. now rewrite !remove_duplicates_In.
  - apply Permutation_nil.
    apply Permutation_sym, NoDup_Permutation;
      [apply remove_duplicates_NoDup | constructor | apply remove_duplicates_In].
Qed.

Lemma remove_duplicates_idempotent_witness :
  Permutation (remove_duplicates (O := nodup_order) [review_ab; review_ba])
              [review_ab; review_ba].
Proof.
  apply (remove_duplicates_idempotent (O1 := nodup_order) (O2 := nodup_order)).
  constructor; [|constructor; [|constructor]]; simpl.
  - intros [H|[]]. apply (f_equal (@items value)) in H. discriminate.
  - intros [].
Defined.

(** X6: which records deduplication returns depends only on which
    records its input holds, not on their order, their repetitions or the
    iteration order of the set. *)
Theorem remove_duplicates_same_records {O1 O2 : SetOrder}
    (l l' : list (pydict value)) :
  same_records l l' ->
  Permutation (remove_duplicates (O := O1) l) (remove_duplicates (O := O2) l')
  /\ length (remove_duplicates (O := O1) l) = length (remove_duplicates (O := O2) l').
Proof.
  intros H. pose proof (remove_duplicates_perm_of (O1 := O1) (O2 := O2) H) as Hp.
  split; [exact Hp | now apply Permutation_length].
Qed.

Lemma remove_duplicates_same_records_witness :
  length (remove_duplicates (O := nodup_order) [review_ab; review_ba; review_ab])
  = length (remove_duplicates (O := nodup_order) [review_ba; review_ab]).
Proof.
  apply (remove_duplicates_same_records (O1 := nodup_order) (O2 := nodup_order)).
  intros d. simpl. tauto.
Defined.

(** ** The keys of a flattened review *)

Section KeyOrder.
Variable V : Type.

Lemma keys_set_item (k : string) (v : V) (l : list (string * V)) :
  map fst (set_item k v l)
  = if existsb (String.eqb k) (map fst l) then map fst l else map fst l ++ [k].
Proof.
  induction l as [|[k0 v0] t IH]; simpl; [reflexivity|].
  destruct (String.eqb_spec k k0) as [->|Hne]; simpl; [reflexivity|].
  rewrite IH. now destruct (existsb (String.eqb k) (map fst t)).
Qed.

Lemma keys_dict_update (t : list (string * V)) : forall d : pydict V,
  dict_keys (dict_update d t) = add_keys (dict_keys d) (map fst t).
Proof.
  unfold dict_update, add_keys.
  induction t as [|[k v] t IH]; intros d; simpl; [reflexivity|].
  rewrite IH. f_equal. unfold dict_keys. simpl. apply keys_set_item.
Qed.
End KeyOrder.

Lemma add_keys_app (seen ks1 ks2 : list string) :
  add_keys seen (ks1 ++ ks2) = add_keys (add_keys seen ks1) ks2.
Proof. unfold add_keys. apply fold_left_app. Qed.

Lemma add_keys_In (ks : list string) : forall seen k,
  In k (add_keys seen ks) <-> In k seen \/ In k ks.
Proof.
  induction ks as [|k0 ks IH]; intros seen k; simpl; [tauto|].
  change (fold_left _ ks ?a) with (add_keys a ks). rewrite IH.
  destruct (existsb (String.eqb k0) seen) eqn:E.
  - apply existsb_exists in E as (x & Hx & Ex). apply String.eqb_eq in Ex. subst x.
    split; [tauto | intros [H|[<-|H]]; auto].
  - rewrite in_app_iff. simpl. tauto.
Qed.

Lemma existsb_In (k : string) (l : list string) :
  existsb (String.eqb k) l = true <-> In k l.
Proof.
  rewrite existsb_exists. split.
  - intros (x & Hx & E). apply String.eqb_eq in E. now subst.
  - intros H. exists k. split; [exact H | apply String.eqb_refl].
Qed.

Lemma existsb_iff (k : string) (l l' : list string) :
  (In k l <-> In k l') ->
  existsb (String.eqb k) l = existsb (String.eqb k) l'.
Proof.
  intros H. apply eq_true_iff_eq. now rewrite !existsb_In.
Qed.

(** Adding keys that were first collected on their own. *)
Lemma add_keys_collected (ks : list string) : forall seen,
  add_keys seen (add_keys [] ks) = add_keys seen ks.
Proof.
  induction ks as [|k ks IH] using rev_ind; intros seen; [reflexivity|].
  rewrite !add_keys_app. simpl.
  destruct (existsb (String.eqb k) (add_keys [] ks)) eqn:E.
  - rewrite IH.
    replace (existsb (String.eqb k) (add_keys seen ks)) with true; [reflexivity|].
    symmetry. apply existsb_In, add_keys_In. right.
    apply existsb_In in E. apply add_keys_In in E as [[]|E]. exact E.
  - rewrite add_keys_app, IH. reflexivity.
Qed.

Lemma add_keys_fresh (ks : list string) : forall seen,
  NoDup (seen ++ ks) -> add_keys seen ks = seen ++ ks.
Proof.
  induction ks as [|k ks IH]; intros seen Hn; simpl; [now rewrite app_nil_r|].
  change (fold_left _ ks ?a) with (add_keys a ks).
  replace (existsb (String.eqb k) seen) with false.
  - rewrite IH, <- app_assoc; [reflexivity|]. now rewrite <- app_assoc.
  - symmetry. apply not_true_is_false. rewrite existsb_In. intros Hk.
    apply NoDup_remove_2 in Hn. apply Hn, in_or_app. now left.
Qed.

Lemma flatten_criterias_keys (review : RawReview) :
  dict_keys (flatten_criterias review)
  = add_keys [] (map criteria (criterias_of review)).
Proof.
  rewrite flatten_criterias_update. unfold dict_of_pairs.
  rewrite keys_dict_update, criterion_names. reflexivity.
Qed.

(** X7: the keys of a flattened review come in a fixed order: the six
    fixed fields first, as [id, date, score, scoreText, title, text], then
    the criterion names in the order of their first appearance, each once
    and without those that are names of fixed fields.  In particular a
    review without criteria flattens to its six fields alone. *)
Theorem flatten_review_key_order (review : RawReview) :
  dict_keys (flatten_review review)
  = add_keys fixed_names (map criteria (criterias_of review))
  /\ (NoDup (fixed_names ++ map criteria (criterias_of review)) ->
      dict_keys (flatten_review review)
      = fixed_names ++ map criteria (criterias_of review))
  /\ (criterias_of review = [] ->
      items (flatten_review review) = fixed_fields review).
Proof.
  assert (H : dict_keys (flatten_review review)
              = add_keys fixed_names (map criteria (criterias_of review))).
  { unfold flatten_review. rewrite keys_dict_update.
    fold (dict_keys (flatten_criterias review)).
    rewrite flatten_criterias_keys. apply add_keys_collected. }
  split; [exact H|]. split.
  - intros Hn. rewrite H. now apply add_keys_fresh.
  - intros E. unfold flatten_review, flatten_criterias. rewrite E. reflexivity.
Qed.

Lemma flatten_review_key_order_witness :
  dict_keys (flatten_review
               (sample_review "r1" "2024-01-02"
                  [mkcriterion "vaf_b" (Some (VInt 2)); mkcriterion "vaf_a" None]))
  = ["id"; "date"; "score"; "scoreText"; "title"; "text"; "vaf_b"; "vaf_a"]
  /\ items (flatten_review (sample_review "r1" "2024-01-02" []))
     = fixed_fields (sample_review "r1" "2024-01-02" []).
Proof.
  split.
  - apply (proj1 (proj2 (flatten_review_key_order
                           (sample_review "r1" "2024-01-02"
                              [mkcriterion "vaf_b" (Some (VInt 2));
                               mkcriterion "vaf_a" None])))).
    simpl. repeat constructor; simpl; intuition discriminate.
  - apply (proj2 (proj2 (flatten_review_key_order
                           (sample_review "r1" "2024-01-02" [])))).
    reflexivity.
Defined.

(** ** What the loop returns *)





(** X9: the records [extract_all_reviews] returns are the flattenings of
    the reviews the loop has collected, each once: no record is returned
    that was not fetched, none that was fetched is missing, and there are
    at most as many records as fetched reviews. *)
Theorem extract_all_reviews_records {O : SetOrder} (fuel : nat) (net : network)
    (app_id : string) (upto_date : option date) (out : list (pydict value)) :
  extract_all_reviews fuel net app_id upto_date = Some (Ok out) ->
  exists all,
    fetch_pages fuel net app_id upto_date None [] = Some (Ok all)
    /\ NoDup out
    /\ (forall x, In x out <-> exists r, In r all /\ x = flatten_review r)
    /\ (length out <= length all)%nat.
Proof.
  unfold extract_all_reviews.
  destruct (fetch_pages fuel net app_id upto_date None []) as [[all|e]|];
    try discriminate.
  intros [= <-]. exists all. split; [reflexivity|].
  split; [apply remove_duplicates_NoDup|]. split.
  - intros x. rewrite remove_duplicates_In, in_map_iff.
    split; intros (r & H1 & H2); exists r; auto.
  - rewrite remove_duplicates_length, <- (length_map flatten_review all),
      <- (length_map (@items value) (map flatten_review all)).
    apply NoDup_incl_length; [apply NoDup_nodup|].
    intros t Ht. now apply nodup_In in Ht.
Qed.

Lemma extract_all_reviews_records_witness :
  exists all,
    fetch_pages 3
      (single_page [sample_review "r1" "2024-01-02" [];
                    sample_review "r1" "2024-01-02" []])
      "com.example.app" None None [] = Some (Ok all)
    /\ (length (remove_duplicates (O := nodup_order) (map flatten_review all))
        <= length all)%nat.
Proof.
  destruct (@extract_all_reviews_records nodup_order 3
              (single_page [sample_review "r1" "2024-01-02" [];
                            sample_review "r1" "2024-01-02" []])
              "com.example.app" None _ eq_refl)
    as (all & Hf & _ & _ & Hl).
  exists all. split; [exact Hf|].
  injection Hf as <-. exact Hl.
Defined.



(** ** A service that never stops *)

Lemma fetch_pages_endless (net : network) (app_id : string)
    (upto_date : option date) :
  (forall tok, exists p,
      get_reviews net app_id tok = Ok (Some (JPage (fst p) (snd p)))
      /\ continues upto_date p) ->
  forall fuel tok acc, fetch_pages fuel net app_id upto_date tok acc = None.
Proof.
  intros H. induction fuel as [|fuel IH]; intros tok acc; [reflexivity|].
  destruct (H tok) as (p & Hg & Hc).
  rewrite fetch_pages_continue with (p := p); trivial.
Qed.

(** X11: the loop has no bound of its own.  Against a service that
    answers every request with a continuation token and at least one
    review dated after the cutoff, no number of requests ends the fetch,
    bounded or full, and [save_app_reviews] does not end either. *)
Theorem fetch_never_ends {O : SetOrder} (env : environment) (app_id : string)
    (st : storage) (upto : date) :
  minus_days 2 (today env) = Ok upto ->
  (forall tok, exists p,
      get_reviews (net env) app_id tok = Ok (Some (JPage (fst p) (snd p)))
      /\ continues (Some upto) p) ->
  forall fuel,
    (forall tok acc,
        fetch_pages fuel (net env) app_id (Some upto) tok acc = None
        /\ fetch_pages fuel (net env) app_id None tok acc = None)
    /\ save_app_reviews fuel env app_id st = None.
Proof.
  intros Hd H fuel.
  pose proof (@fetch_pages_endless (net env) app_id (Some upto) H fuel) as Hc.
  assert (H' : forall tok, exists p,
             get_reviews (net env) app_id tok = Ok (Some (JPage (fst p) (snd p)))
             /\ continues None p).
  { intros tok. destruct (H tok) as (p & Hg & Ht & _). exists p. now repeat split. }
  pose proof (@fetch_pages_endless (net env) app_id None H' fuel) as Hn.
  split; [now split|].
  unfold save_app_reviews, fetch_for_sync, extract_all_reviews.
  rewrite Hd, Hc, Hn. now destruct (0 <? length _)%nat.
Qed.

Lemma fetch_never_ends_witness :
  save_app_reviews (O := nodup_order) 1000
    (mkenv (endless [sample_review "r9" "2024-06-01" []]) (mkdate 2024 1 5))
    "com.example.app" no_files = None.
Proof.
  apply (@fetch_never_ends nodup_order
           (mkenv (endless [sample_review "r9" "2024-06-01" []]) (mkdate 2024 1 5))
           "com.example.app" no_files (mkdate 2024 1 3)).
  - reflexivity.
  - intros tok.
    exists ([sample_review "r9" "2024-06-01" []], Some "more").
    split; [reflexivity|]. split; [reflexivity|].
    split; [constructor; [eexists; reflexivity | constructor] | discriminate].
Defined.

(** ** A date that does not parse, on a later page *)

Lemma fetch_pages_bad_date (net : network) (app_id : string) (d : date)
    (pages : list page) (before after : list RawReview) (r : RawReview)
    (next : option string) (e : exn) (fuel : nat) :
  serves net app_id None (pages ++ [(before ++ r :: after, next)]) ->
  Forall (continues (Some d)) pages ->
  Forall parses before ->
  strptime (rv_date r) = Raise e ->
  (length pages < fuel)%nat ->
  fetch_pages fuel net app_id (Some d) None [] = Some (Raise e).
Proof.
  intros Hs Hc Hb Hr Hf. apply serves_app in Hs as [Hs [Hg _]].
  destruct (fuel_split Hf) as [f ->].
  rewrite fetch_pages_chain; trivial.
  simpl in Hg. simpl. rewrite Hg.
  now rewrite cutoff_filter_raises with (e := e).
Qed.

(** X12: in an incremental sync, a review whose date [strptime] rejects,
    on whatever page the loop reaches, ends [save_app_reviews] with the
    parser's exception: the reviews collected from the pages before it
    are dropped with it and the archive stays as it was. *)
Theorem incremental_sync_bad_date {O : SetOrder} (env : environment)
    (app_id : string) (st : storage) (upto : date) (pages : list page)
    (before after : list RawReview) (r : RawReview) (next : option string)
    (e : exn) (fuel : nat) :
  load_reviews st (reviews_filename app_id) <> [] ->
  minus_days 2 (today env) = Ok upto ->
  serves (net env) app_id None (pages ++ [(before ++ r :: after, next)]) ->
  Forall (continues (Some upto)) pages ->
  Forall parses before ->
  strptime (rv_date r) = Raise e ->
  (length pages < fuel)%nat ->
  extract_all_reviews fuel (net env) app_id (Some upto) = Some (Raise e)
  /\ save_app_reviews fuel env app_id st = Some (Raise e, st).
Proof.
  intros Hl Hd Hs Hc Hb Hr Hf.
  assert (He : extract_all_reviews fuel (net env) app_id (Some upto)
               = Some (Raise e)).
  { apply extract_all_reviews_raise.
    now apply fetch_pages_bad_date
      with (pages := pages) (before := before) (r := r) (after := after)
           (next := next). }
  split; [exact He|].
  unfold save_app_reviews, fetch_for_sync. rewrite Hd.
  destruct (load_reviews st (reviews_filename app_id)); [contradiction|].
  simpl length. simpl Nat.ltb. cbv iota. now rewrite He.
Qed.

(** The three-page service with a review of the second page dated
    "03/03/2024". *)
Lemma incremental_sync_bad_date_witness :
  let bad := sample_review "r4" "03/03/2024" [] in
  let service :=
    mknetwork
      (fun _ params =>
         match params with
         | [] => respond page_one
         | _ => respond ([bad], None)
         end)
      (fun _ => error_page 404) in
  save_app_reviews (O := nodup_order) 5 (mkenv service (mkdate 2024 3 6))
    "com.example.app" malformed_stored
  = Some (Raise ValueError, malformed_stored).
Proof.
  intros bad service.
  apply (@incremental_sync_bad_date nodup_order (mkenv service (mkdate 2024 3 6))
           "com.example.app" malformed_stored (mkdate 2024 3 4)
           [page_one] [] [] bad None ValueError 5).
  - discriminate.
  - reflexivity.
  - simpl. repeat split; reflexivity.
  - constructor; [|constructor]. split; [reflexivity|].
    split; [constructor; [eexists; reflexivity | constructor] | discriminate].
  - constructor.
  - reflexivity.
  - simpl. lia.
Defined.

(** ** The two-day window *)





(** ** Records without a sort key *)

Lemma map_result_first_failure (A B : Type) (f : A -> result B)
    (before after : list A) (x : A) (e : exn) :
  Forall (fun y => exists b, f y = Ok b) before ->
  f x = Raise e ->
  map_result f (before ++ x :: after) = Raise e.
Proof.
  induction 1 as [|y t [b Hy] _ IH]; simpl; intros Hx.
  - now rewrite Hx.
  - rewrite Hy. simpl. now rewrite (IH Hx).
Qed.

Lemma strptime_ymd_raises (s : string) (e : exn) :
  strptime_ymd s = Raise e -> e = ValueError.
Proof.
  unfold strptime_ymd.
  repeat match goal with
         | |- context [match ?t with _ => _ end] => destruct t
         end; congruence.
Qed.

(** X14: the sort computes the key of every record before it compares
    any two, so the first record (in the order the set yields them) that
    has no key decides the exception: [KeyError] for a record without
    "date", or with a date that parses but without "id"; [TypeError] for a
    date that is not a string; [ValueError] for a string that is not a
    date. *)
Theorem sorted_reviews_key_errors (before after : list (pydict value))
    (x : pydict value) :
  Forall keyed before ->
  (forall e, sort_key x = Raise e ->
             sorted_reviews (before ++ x :: after) = Raise e)
  /\ (dict_get "date" x = None -> sort_key x = Raise KeyError)
  /\ (forall v, dict_get "date" x = Some v -> (forall s, v <> VStr s) ->
                sort_key x = Raise TypeError)
  /\ (forall s e, dict_get "date" x = Some (VStr s) ->
                  strptime_ymd s = Raise e ->
                  sort_key x = Raise ValueError)
  /\ (forall s d, dict_get "date" x = Some (VStr s) ->
                  strptime_ymd s = Ok d ->
                  dict_get "id" x = None ->
                  sort_key x = Raise KeyError).
Proof.
  intros Hb. split; [|split; [|split; [|split]]].
  - intros e He. unfold sorted_reviews.
    rewrite map_result_first_failure with (e := e); [reflexivity| |].
    + eapply Forall_impl; [|exact Hb]. intros y [k Hk].
      unfold with_key. rewrite Hk. simpl. eauto.
    + unfold with_key. now rewrite He.
  - intros H. unfold sort_key, subscript. now rewrite H.
  - intros v H Hv. unfold sort_key, subscript. rewrite H. simpl.
    destruct v as [|n|s]; try reflexivity. now destruct (Hv s).
  - intros s e H He. unfold sort_key, subscript. rewrite H. simpl.
    rewrite He. simpl. f_equal. now apply strptime_ymd_raises in He.
  - intros s d H Hd Hi. unfold sort_key, subscript. rewrite H. simpl.
    rewrite Hd. simpl. now rewrite Hi.
Qed.

Lemma sorted_reviews_key_errors_witness :
  sorted_reviews
    [flatten_review (sample_review "r1" "2024-01-02" []);
     dict_of_pairs [("id", VStr "r2"); ("title", VStr "No date")];
     malformed_record]
  = Raise KeyError.
Proof.
  apply (proj1 (@sorted_reviews_key_errors
                  [flatten_review (sample_review "r1" "2024-01-02" [])]
                  [malformed_record]
                  (dict_of_pairs [("id", VStr "r2"); ("title", VStr "No date")])
                  ltac:(constructor; [eexists; reflexivity | constructor]))).
  reflexivity.
Defined.

(** ** Ids that do not compare *)

Lemma py_lt_raises_sym (i j : value) :
  py_lt i j = Raise TypeError -> py_lt j i = Raise TypeError.
Proof. destruct i, j; simpl; congruence. Qed.

Lemma sorted_pair (x y : pydict value) (kx ky : date * value) :
  sort_key x = Ok kx -> sort_key y = Ok ky ->
  sorted_reviews [x; y]
  = (b <- key_lt kx ky ;; Ok (if b then [y; x] else [x; y])).
Proof.
  intros Hx Hy. unfold sorted_reviews, with_key. simpl.
  rewrite Hx, Hy. simpl. now destruct (key_lt kx ky) as [[|]|e].
Qed.

(** X15: ids are compared only between records of the same date.  Two
    records of one date whose ids differ and [<] cannot compare (an integer
    and a string, [None] and anything else) make the sort raise [TypeError] in
    either order; two records of different dates are sorted whatever
    their ids are; and two records of one date that both have the id
    [None] are left in their order. *)
Theorem sorted_reviews_id_comparison (x y : pydict value) (dx dy : date)
    (i j : value) :
  sort_key x = Ok (dx, i) -> sort_key y = Ok (dy, j) ->
  (dx = dy -> i <> j -> py_lt i j = Raise TypeError ->
   sorted_reviews [x; y] = Raise TypeError
   /\ sorted_reviews [y; x] = Raise TypeError)
  /\ (date_ltb dx dy = true ->
      sorted_reviews [x; y] = Ok [y; x] /\ sorted_reviews [y; x] = Ok [y; x])
  /\ (dx = dy -> i = VNone -> j = VNone -> sorted_reviews [x; y] = Ok [x; y])
  /\ (forall n s, py_lt (VInt n) (VStr s) = Raise TypeError
                  /\ py_lt VNone (VStr s) = Raise TypeError
                  /\ py_lt VNone (VInt n) = Raise TypeError).
Proof.
  intros Hx Hy. split; [|split; [|split]].
  - intros -> Hne Hlt.
    rewrite (@sorted_pair x y _ _ Hx Hy), (@sorted_pair y x _ _ Hy Hx). unfold key_lt. simpl.
    assert (E : date_eqb dy dy = true) by now apply date_eqb_eq.
    rewrite E.
    destruct (value_eq_dec i j); [contradiction|].
    destruct (value_eq_dec j i); [congruence|].
    rewrite Hlt, (@py_lt_raises_sym i j Hlt). now split.
  - intros Hlt.
    rewrite (@sorted_pair x y _ _ Hx Hy), (@sorted_pair y x _ _ Hy Hx). unfold key_lt. simpl.
    assert (E : date_eqb dx dy = false).
    { apply not_true_is_false. intros E. apply date_eqb_eq in E. subst.
      rewrite date_ltb_irrefl in Hlt. discriminate. }
    assert (E' : date_eqb dy dx = false).
    { apply not_true_is_false. intros E'. apply date_eqb_eq in E'. subst.
      rewrite date_ltb_irrefl in Hlt. discriminate. }
    rewrite E, E', Hlt, (@date_ltb_asym dx dy Hlt). now split.
  - intros -> -> ->. rewrite (@sorted_pair x y _ _ Hx Hy). unfold key_lt. simpl.
    assert (E : date_eqb dy dy = true) by now apply date_eqb_eq.
    now rewrite E.
  - intros n s. now repeat split.
Qed.

Lemma sorted_reviews_id_comparison_witness :
  let x := dict_of_pairs [("id", VInt 7); ("date", VStr "2024-01-02")] in
  let y := dict_of_pairs [("id", VStr "r1"); ("date", VStr "2024-01-02")] in
  let z := dict_of_pairs [("id", VStr "r1"); ("date", VStr "2024-01-03")] in
  sorted_reviews [x; y] = Raise TypeError /\ sorted_reviews [x; z] = Ok [z; x].
Proof.
  intros x y z. split.
  - apply (proj1 (@sorted_reviews_id_comparison x y (mkdate 2024 1 2)
                    (mkdate 2024 1 2) (VInt 7) (VStr "r1") eq_refl eq_refl));
      [reflexivity | discriminate | reflexivity].
  - apply (proj1 (proj2 (@sorted_reviews_id_comparison x z (mkdate 2024 1 2)
                           (mkdate 2024 1 3) (VInt 7) (VStr "r1")
                           eq_refl eq_refl))).
    reflexivity.
Defined.

(** ** When the sort fails, and when it has nothing to do *)

Lemma map_result_some_failure (A B : Type) (f : A -> result B) (l : list A) :
  (exists x e, In x l /\ f x = Raise e) ->
  exists x e, In x l /\ f x = Raise e /\ map_result f l = Raise e.
Proof.
  induction l as [|y t IH]; intros (x & e & Hin & Hx); [contradiction|].
  simpl. destruct (f y) as [b|e'] eqn:Hy.
  - destruct Hin as [->|Hin]; [congruence|].
    destruct IH as (x' & e'' & Hin' & Hx' & Hm); [eauto|].
    exists x', e''. simpl. rewrite Hm. auto.
  - exists y, e'. auto.
Qed.

(** X16: the archive is opened for writing only after the sort.  When
    some record of the merged list has no sort key, lines 97-100 end with
    the exception of such a record and every file is as it was: the
    archive is neither truncated nor partly written. *)
Theorem merge_and_persist_failure {O : SetOrder} (review_filename : string)
    (existing_reviews reviews : list (pydict value)) (st : storage)
    (x : pydict value) (e : exn) :
  In x (existing_reviews ++ reviews) ->
  sort_key x = Raise e ->
  exists y e',
    In y (existing_reviews ++ reviews)
    /\ sort_key y = Raise e'
    /\ merge_and_persist review_filename existing_reviews reviews st
       = (Raise e', st).
Proof.
  intros Hin Hx.
  destruct (@map_result_some_failure _ _ with_key
              (remove_duplicates (existing_reviews ++ reviews)))
    as (y & e' & Hy & Hk & Hm).
  { exists x, e. split; [now apply remove_duplicates_In|].
    unfold with_key. now rewrite Hx. }
  rewrite remove_duplicates_In in Hy. exists y, e'. split; [exact Hy|].
  unfold with_key in Hk. destruct (sort_key y) as [k|e''] eqn:E; [discriminate|].
  injection Hk as ->. split; [reflexivity|].
  unfold merge_and_persist, sorted_reviews. now rewrite Hm.
Qed.

Lemma merge_and_persist_failure_witness :
  exists y e',
    In y ([malformed_record] ++ unsorted_batch)
    /\ sort_key y = Raise e'
    /\ merge_and_persist (O := nodup_order) (reviews_filename "com.example.app")
         [malformed_record] unsorted_batch malformed_stored
       = (Raise e', malformed_stored).
Proof.
  apply (@merge_and_persist_failure nodup_order
           (reviews_filename "com.example.app") [malformed_record]
           unsorted_batch malformed_stored malformed_record ValueError).
  - now left.
  - reflexivity.
Defined.

(** X17: an archive that is sorted, holds no record twice, and whose
    records have string ids and pairwise different sort keys is a fixed
    point of lines 97-100: merged with any reviews it already holds, and
    so with no reviews at all, it is written back unchanged. *)
Theorem merge_and_persist_fixed_point {O : SetOrder} (review_filename : string)
    (archive reviews : list (pydict value)) (st : storage) :
  Sorted desc archive ->
  NoDup archive ->
  Forall has_str_id archive ->
  (forall a b, In a archive -> In b archive -> sort_key a = sort_key b -> a = b) ->
  incl reviews archive ->
  exists st',
    merge_and_persist review_filename archive reviews st = (Ok tt, st')
    /\ reviews_files st' review_filename = Some archive.
Proof.
  intros Hs Hn Hf Hinj Hincl.
  assert (Hin : forall x, In x (remove_duplicates (archive ++ reviews))
                          <-> In x archive).
  { intros x. rewrite remove_duplicates_In, in_app_iff.
    split; [intros [H|H]; [exact H | now apply Hincl] | now left]. }
  assert (Hf2 : Forall has_str_id (remove_duplicates (archive ++ reviews))).
  { rewrite Forall_forall in *. intros x Hx. now apply Hf, Hin. }
  destruct (sorted_reviews_total Hf2) as [S HS].
  unfold merge_and_persist. rewrite HS. eexists. split; [reflexivity|].
  simpl. unfold write. rewrite String.eqb_refl. f_equal.
  apply sorted_reviews_Sorted in HS as [HsS HpS].
  assert (Hp : Permutation archive S).
  { eapply Permutation_trans; [|exact HpS].
    apply NoDup_Permutation; [exact Hn | apply remove_duplicates_NoDup|].
    intros x. now rewrite Hin. }
  symmetry. apply (StronglySorted_unique str_gt_asym); [| |exact Hp].
  - now apply Sorted_desc_str_gt.
  - apply Sorted_desc_str_gt; trivial.
    + eapply Permutation_NoDup; eassumption.
    + eapply Permutation_Forall; eassumption.
    + intros a b Ha Hb.
      apply Hinj; (eapply Permutation_in; [apply Permutation_sym; exact Hp|]);
        assumption.
Qed.

Lemma merge_and_persist_fixed_point_witness :
  let r9 := flatten_review (sample_review "9" "2024-01-03" []) in
  let r10 := flatten_review (sample_review "10" "2024-01-03" []) in
  let r1 := flatten_review (sample_review "r1" "2024-01-02" []) in
  exists st',
    merge_and_persist (O := nodup_order) (reviews_filename "com.example.app")
      [r9; r10; r1] [r10] no_files = (Ok tt, st')
    /\ reviews_files st' (reviews_filename "com.example.app") = Some [r9; r10; r1].
Proof.
  intros r9 r10 r1.
  apply (@merge_and_persist_fixed_point nodup_order
           (reviews_filename "com.example.app") [r9; r10; r1] [r10] no_files).
  - assert (H1 : desc r10 r1).
    { exists (mkdate 2024 1 3, VStr "10"), (mkdate 2024 1 2, VStr "r1").
      split; [reflexivity|]. split; [reflexivity|]. now left. }
    assert (H2 : desc r9 r10).
    { exists (mkdate 2024 1 3, VStr "9"), (mkdate 2024 1 3, VStr "10").
      split; [reflexivity|]. split; [reflexivity|].
      right. split; [reflexivity|]. now right. }
    constructor; [constructor; [constructor; constructor|]|];
      constructor; assumption.
  - assert (Hd : forall a b : pydict value,
               dict_get "id" a <> dict_get "id" b -> a <> b)
      by (intros a b H E; apply H; now rewrite E).
    constructor; [|constructor; [|constructor; [|constructor]]]; simpl.
    + intros [H|[H|[]]]; revert H; apply Hd; discriminate.
    + intros [H|[]]; revert H; apply Hd; discriminate.
    + intros [].
  - constructor; [|constructor; [|constructor; [|constructor]]];
      eexists; eexists; reflexivity.
  - intros a b Ha Hb E. simpl in Ha, Hb.
    destruct Ha as [<-|[<-|[<-|[]]]], Hb as [<-|[<-|[<-|[]]]];
      try reflexivity; vm_compute in E; discriminate E.
  - intros x [<-|[]]. simpl. auto.
Defined.

(** ** Criteria counts, again *)

Lemma reviews_with_perm (k : string) (l l' : list (pydict value)) :
  Permutation l l' -> reviews_with k l = reviews_with k l'.
Proof.
  intros H. unfold reviews_with. f_equal.
  induction H; simpl; try (destruct (contains k x)); simpl; try lia.
  destruct (contains k y); simpl; lia.
Qed.

Lemma count_criterias_lookup (reviews : list (pydict value)) (k : string) :
  dict_get k (count_criterias reviews)
  = bump (vaf_only k (reviews_with k reviews)) None.
Proof. unfold count_criterias. now rewrite count_reviews_get. Qed.

(** X18: the counts depend only on which keys each review has, not on
    the order of the archive: a reordered archive gives every key the
    same count; and no count exceeds the number of reviews. *)
Theorem count_criterias_order_independent (l l' : list (pydict value)) :
  Permutation l l' ->
  (forall k, dict_get k (count_criterias l) = dict_get k (count_criterias l'))
  /\ (forall k n, dict_get k (count_criterias l) = Some n ->
                  1 <= n <= Z.of_nat (length l)).
Proof.
  intros H. split.
  - intros k. rewrite !count_criterias_lookup. now rewrite (reviews_with_perm k H).
  - intros k n Hn. apply count_criterias_get in Hn as (_ & -> & Hpos).
    split; [lia|]. unfold reviews_with. apply inj_le, filter_length_le.
Qed.

Lemma count_criterias_order_independent_witness :
  dict_get "vaf_clarity" (count_criterias three_records)
  = dict_get "vaf_clarity" (count_criterias (rev three_records)).
Proof.
  apply (@count_criterias_order_independent three_records (rev three_records)).
  apply Permutation_rev.
Defined.

(** X19: [save_app_review_criterias] reads the archive and writes the
    criteria file of its app, nothing else: the archive, the payload files
    and the criteria files of other names are as before; and since the
    counts are made from the archive alone, a second run writes what the
    first wrote. *)
Theorem save_app_review_criterias_frame (app_id : string) (st : storage) :
  reviews_files (save_app_review_criterias app_id st) = reviews_files st
  /\ payload_files (save_app_review_criterias app_id st) = payload_files st
  /\ (forall name,
        name <> criterias_filename app_id ->
        criterias_files (save_app_review_criterias app_id st) name
        = criterias_files st name)
  /\ (forall name,
        criterias_files
          (save_app_review_criterias app_id (save_app_review_criterias app_id st))
          name
        = criterias_files (save_app_review_criterias app_id st) name)
  /\ (forall other name,
        criterias_files
          (save_app_review_criterias other (save_app_review_criterias app_id st))
          name
        = criterias_files
            (save_app_review_criterias app_id (save_app_review_criterias other st))
            name).
Proof.
  split; [reflexivity|]. split; [reflexivity|]. split; [|split].
  - intros name Hne. unfold save_app_review_criterias, write_criterias, write.
    simpl. destruct (String.eqb_spec name (criterias_filename app_id));
      [contradiction | reflexivity].
  - intros name. unfold save_app_review_criterias, write_criterias, write.
    simpl. now destruct (String.eqb name (criterias_filename app_id)).
  - intros other name. unfold save_app_review_criterias, write_criterias, write.
    simpl.
    destruct (String.eqb_spec name (criterias_filename other)) as [E1|N1],
             (String.eqb_spec name (criterias_filename app_id)) as [E2|N2];
      try reflexivity.
    rewrite E1 in E2. apply criterias_filename_inj in E2. now subst.
Qed.

Lemma save_app_review_criterias_frame_witness :
  criterias_files (save_app_review_criterias "com.example.app" three_records_stored)
                  (criterias_filename "org.example.other")
  = None.
Proof.
  apply (proj1 (proj2 (proj2
           (save_app_review_criterias_frame "com.example.app"
              three_records_stored)))).
  intros H. apply criterias_filename_inj in H. discriminate.
Defined.
